(** * DNS reconciliation engine of app.py ([perform_sync_cycle])

  A shallow embedding of the sync cycle of [src/app/app.py]: the
  desired-state builder (the [current_ts_fqdns_ips] dictionary), the
  creation loop, the cleanup loop and the controller around them.

  Python strings are modelled by [string]: sequences of characters
  whose code point is below 256 (host names, domain names and IP
  text are ASCII).  The collaborators imported from [cloudflare],
  [tailscale], [headscale] and the standard [ipaddress] module are
  not part of the file under verification; the engine is
  parameterised by them (record [Env]). *)

From Stdlib Require Import String Ascii List Bool Arith NArith ZArith Lia.
Import ListNotations.
Local Open Scope string_scope.

Set Implicit Arguments.

(** ** Python string operations used by the engine *)

Module PyStr.

(** [str.lower] on one character.  Below code point 256 the upper-case
      letters are A..Z and the Latin-1 letters 192..222 except the
      multiplication sign 215; each is 32 below its lower-case form. *)
Definition lower_char (c : ascii) : ascii :=
  let n := N_of_ascii c in
  if ((65 <=? n) && (n <=? 90))%N then ascii_of_N (n + 32)
  else if ((192 <=? n) && (n <=? 222) && negb (n =? 215))%N
         then ascii_of_N (n + 32)
         else c.

(** [s.lower()] *)
Fixpoint lower (s : string) : string :=
  match s with
  | EmptyString => EmptyString
  | String c s' => String (lower_char c) (lower s')
  end.

(** [s.split('.')[0]]: the text before the first dot, the whole string
      when it has no dot. *)
Fixpoint first_label (s : string) : string :=
  match s with
  | EmptyString => EmptyString
  | String c s' =>
        if (c =? ".")%char then EmptyString else String c (first_label s')
  end.

(** [s.endswith(suffix)] *)
Fixpoint endswith (s suffix : string) : bool :=
  (s =? suffix) ||
  match s with
  | EmptyString => false
  | String _ s' => endswith s' suffix
  end.

(** Python truth value of a string: non-empty. *)
Definition truthy (s : string) : bool :=
  match s with EmptyString => false | String _ _ => true end.

(** [c in s] for a single character. *)
Fixpoint contains_char (c : ascii) (s : string) : bool :=
  match s with
  | EmptyString => false
  | String c' s' => (c' =? c)%char || contains_char c s'
  end.

End PyStr.
Import PyStr.

(** ** Python dictionaries with string keys

  A [dict] keeps its entries in insertion order; assigning to a key
  that is already present replaces the value and leaves the entry at
  its place.  The creation loop iterates over [items()], so the order
  is part of the model. *)

Module PyDict.
Section Dict.
Variable V : Type.

Definition dict := list (string * V).

Definition empty : dict := [].

(** [d[k] = v] *)
Fixpoint set (k : string) (v : V) (d : dict) : dict :=
  match d with
  | [] => [(k, v)]
  | (k', v') :: d' =>
        if k' =? k then (k, v) :: d' else (k', v') :: set k v d'
  end.

(** [d.get(k)] *)
Fixpoint get (k : string) (d : dict) : option V :=
  match d with
  | [] => None
  | (k', v') :: d' => if k' =? k then Some v' else get k d'
  end.

(** [k in d] *)
Fixpoint mem (k : string) (d : dict) : bool :=
  match d with
  | [] => false
  | (k', _) :: d' => (k' =? k) || mem k d'
  end.

(** [d.items()], [d.keys()], [d.values()] *)
Definition items (d : dict) : list (string * V) := d.
Definition keys (d : dict) : list string := map fst d.
Definition values (d : dict) : list V := map snd d.

End Dict.
End PyDict.

(** ** Data model *)

(** One element of [ts_records]: [{'hostname': ..., 'address': ...}]. *)
Record MeshDevice := mkDevice {
  hostname : string;
  address : string
}.

(** One value of [current_ts_fqdns_ips]:
  [{'fqdn': ..., 'address': ..., 'original_hostname': ...}]. *)
Record DesiredRecord := mkDesired {
  fqdn : string;
  ts_address : string;
  original_hostname : string
}.

(** One element of the list returned by [getZoneRecords]; the engine
  reads ['id'], ['name'] and ['content']. *)
Record ZoneRecord := mkZoneRecord {
  id : string;
  name : string;
  content : string;
  rtype : string
}.

(** The dictionary returned by [getConfig()].  [cf_sub] is
  [config.get("cf-sub")], [None] when the key is absent. *)
Record Config := mkConfig {
  mode : string;
  cf_key : string;
  cf_domain : string;
  cf_sub : option string;
  ts_key : string;
  ts_client_id : string;
  ts_client_secret : string;
  ts_tailnet : string;
  hs_apikey : string;
  hs_baseurl : string
}.

Definition DesiredSet := PyDict.dict DesiredRecord.

(** [ipaddress.ip_address(a).version] *)
Inductive ip_version := IPv4 | IPv6.

(** [records_typemap = {4: 'A', 6: 'AAAA'}] *)
Definition records_typemap (v : ip_version) : string :=
  match v with IPv4 => "A" | IPv6 => "AAAA" end.

(** ** Desired-state builder (lines 60-65) *)

(** [("." + config.get("cf-sub").lower() if config.get("cf-sub") else "")] *)
Definition sub_part (cfg : Config) : string :=
  match cf_sub cfg with
  | Some s => if truthy s then "." ++ lower s else ""
  | None => ""
  end.

(** [expected_ending], the managed suffix (line 105). *)
Definition expected_ending (cfg : Config) : string :=
  sub_part cfg ++ "." ++ lower (cf_domain cfg).

Section Builder.
Variable alterHostname : string -> string.
Variable cfg : Config.

(** [_hostname_part] and [_tsfqdn] of lines 62-64. *)
Definition hostname_part (ts_rec : MeshDevice) : string :=
  alterHostname (lower (first_label (hostname ts_rec))).

Definition tsfqdn_of (ts_rec : MeshDevice) : string :=
  hostname_part ts_rec ++ sub_part cfg ++ "." ++ lower (cf_domain cfg).

Definition key_of (ts_rec : MeshDevice) : string :=
  tsfqdn_of ts_rec ++ "_" ++ address ts_rec.

Definition record_of (ts_rec : MeshDevice) : DesiredRecord :=
  {| fqdn := tsfqdn_of ts_rec;
       ts_address := address ts_rec;
       original_hostname := hostname ts_rec |}.

(** The loop of lines 61-65, started from a dictionary [acc]. *)
Fixpoint build_from (acc : DesiredSet) (ts_records : list MeshDevice)
  : DesiredSet :=
  match ts_records with
  | [] => acc
  | ts_rec :: rest =>
        build_from (PyDict.set (key_of ts_rec) (record_of ts_rec) acc) rest
  end.

Definition build_desired (ts_records : list MeshDevice) : DesiredSet :=
  build_from (PyDict.empty DesiredRecord) ts_records.

End Builder.

(** ** Calls, reports and the collaborators *)

(** Outcome of a call that may raise. *)
Inductive result (A : Type) : Type :=
| Val (a : A)
| Exn.
Arguments Exn {A}.

(** Arguments of [createDNSRecord(token, domain, name, type, content,
  subdomain=..., zoneId=...)] (line 82). *)
Record CreateCall := mkCreate {
  c_token : string;
  c_domain : string;
  c_name : string;
  c_type : string;
  c_content : string;
  c_subdomain : option string;
  c_zoneId : string
}.

(** Arguments of [deleteDNSRecord(token, domain, id, zoneId=...)]
  (line 124). *)
Record DeleteCall := mkDelete {
  d_token : string;
  d_domain : string;
  d_id : string;
  d_zoneId : string
}.

(** The labels printed by the two loops (lines 74, 80, 84, 118, 123). *)
Inductive classification :=
| UP_TO_DATE
| ADDING
| SKIPPING_INVALID_HOSTNAME
| SKIP_DELETE_NON_MESH_IP
| DELETING_STALE.

(** What a cycle does that is visible from outside: a printed
  classification line (label, fqdn, address) or a mutation call. *)
Inductive event :=
| Report (c : classification) (fq : string) (ip : string)
| CallCreate (a : CreateCall)
| CallDelete (a : DeleteCall).

(** The imported collaborators.  [W] is the state of the outside world
  (DNS provider, mesh control server); a call may change it and may
  raise.  The three predicates and [ipaddress.ip_address] are pure;
  [ip_address] answers [None] where Python raises [ValueError]. *)
Record Env (W : Type) := mkEnv {
  getZoneId : string -> string -> W -> result (option string) * W;
  getZoneRecords :
    string -> string -> string -> W -> result (option (list ZoneRecord)) * W;
  getTailscaleDevice :
    string -> string -> string -> string -> W
    -> result (option (list MeshDevice)) * W;
  getHeadscaleDevice :
    string -> string -> W -> result (option (list MeshDevice)) * W;
  createDNSRecord : CreateCall -> W -> result unit * W;
  deleteDNSRecord : DeleteCall -> W -> result unit * W;
  isValidDNSRecord : string -> bool;
  isTailscaleIP : string -> bool;
  alterHostname : string -> string;
  ip_address : string -> option ip_version
}.

(** ** A monad for the body of the cycle: world state, exceptions and
  the events emitted so far by the computation *)

Section Monad.
Variable W : Type.

Definition M (A : Type) : Type := W -> result A * W * list event.

Definition ret {A} (a : A) : M A := fun w => (Val a, w, []).

Definition bind {A B} (m : M A) (k : A -> M B) : M B :=
  fun w =>
    match m w with
    | (Val a, w1, e1) =>
        match k a w1 with
        | (r, w2, e2) => (r, w2, (e1 ++ e2)%list)
        end
    | (Exn, w1, e1) => (Exn, w1, e1)
    end.

Definition emit (e : event) : M unit := fun w => (Val tt, w, [e]).

Definition raise {A} : M A := fun w => (Exn, w, []).

(** A call of a collaborator. *)
Definition call {A} (f : W -> result A * W) : M A :=
  fun w => match f w with (r, w') => (r, w', []) end.

(** [for x in l: body(x)] *)
Fixpoint for_each {A} (body : A -> M unit) (l : list A) : M unit :=
  match l with
  | [] => ret tt
  | x :: l' => bind (body x) (fun _ => for_each body l')
  end.

End Monad.

Arguments ret {W A} a.
Arguments bind {W A B} m k.
Arguments emit {W} e.
Arguments raise {W A}.
Arguments call {W A} f.
Arguments for_each {W A} body l.

Notation "x <- m ;; k" := (bind m (fun x => k))
  (at level 61, m at next level, right associativity).
Notation "m ;;; k" := (bind m (fun _ => k))
  (at level 61, right associativity).

(** Projections of a run: how it ended, the world it leaves, the events
  it produced. *)
Definition outcome {R W} (r : R * W * list event) : R := fst (fst r).
Definition world_after {R W} (r : R * W * list event) : W := snd (fst r).
Definition events {R W} (r : R * W * list event) : list event := snd r.

(** The create calls, delete calls and classification lines of a trace. *)
Fixpoint creates (evs : list event) : list CreateCall :=
  match evs with
  | [] => []
  | CallCreate a :: evs' => a :: creates evs'
  | _ :: evs' => creates evs'
  end.

Fixpoint deletes (evs : list event) : list DeleteCall :=
  match evs with
  | [] => []
  | CallDelete a :: evs' => a :: deletes evs'
  | _ :: evs' => deletes evs'
  end.

Fixpoint reports (evs : list event)
  : list (classification * string * string) :=
  match evs with
  | [] => []
  | Report c f a :: evs' => (c, f, a) :: reports evs'
  | _ :: evs' => reports evs'
  end.

(** ** The sync cycle *)

Section Engine.
Variable W : Type.
Variable E : Env W.
Variable cfg : Config.

(** [any(c['name'].lower() == tsfqdn and c['content'] == ts_address
       for c in cf_records_current)] (line 73) *)
Definition up_to_date (cf_records_current : list ZoneRecord)
  (tsfqdn ts_addr : string) : bool :=
  existsb (fun c => (lower (name c) =? tsfqdn) && (content c =? ts_addr))
          cf_records_current.

(** The create call of line 82. *)
Definition create_args (cf_ZoneId : string) (ts_detail : DesiredRecord)
  (v : ip_version) : CreateCall :=
  {| c_token := cf_key cfg;
     c_domain := cf_domain cfg;
     c_name := lower (first_label (original_hostname ts_detail));
     c_type := records_typemap v;
     c_content := ts_address ts_detail;
     c_subdomain := cf_sub cfg;
     c_zoneId := cf_ZoneId |}.

(** Body of the creation loop (lines 69-84) for one item of
  [current_ts_fqdns_ips.items()]. *)
Definition creation_step (cf_ZoneId : string)
  (cf_records_current : list ZoneRecord)
  (item : string * DesiredRecord) : M W unit :=
  let ts_detail := snd item in
  let tsfqdn := fqdn ts_detail in
  let ts_addr := ts_address ts_detail in
  let original := original_hostname ts_detail in
  if up_to_date cf_records_current tsfqdn ts_addr then
    emit (Report UP_TO_DATE tsfqdn ts_addr)
  else
    match ip_address E ts_addr with
    | None => raise
    | Some v =>
        if isValidDNSRecord E original then
          emit (Report ADDING tsfqdn ts_addr) ;;;
          emit (CallCreate (create_args cf_ZoneId ts_detail v)) ;;;
          call (createDNSRecord E (create_args cf_ZoneId ts_detail v))
        else
          emit (Report SKIPPING_INVALID_HOSTNAME tsfqdn ts_addr)
    end.

(** The creation loop (lines 68-84). *)
Definition creation_phase (cf_ZoneId : string)
  (cf_records_current : list ZoneRecord) (desired : DesiredSet) : M W unit :=
  for_each (creation_step cf_ZoneId cf_records_current)
           (PyDict.items desired).

(** The delete call of line 124. *)
Definition delete_args (cf_ZoneId : string) (cf_rec : ZoneRecord)
  : DeleteCall :=
  {| d_token := cf_key cfg;
     d_domain := cf_domain cfg;
     d_id := id cf_rec;
     d_zoneId := cf_ZoneId |}.

(** Body of the cleanup loop (lines 94-124) for one zone record.  Each
  [continue] ends the body.  [hostname_part_from_cf] (line 110) is
  computed and never used; it is left out. *)
Definition cleanup_step (cf_ZoneId : string) (desired : DesiredSet)
  (cf_rec : ZoneRecord) : M W unit :=
  let cf_rec_fqdn := lower (name cf_rec) in
  let cf_rec_content := content cf_rec in
  if PyDict.mem (cf_rec_fqdn ++ "_" ++ cf_rec_content) desired then
    ret tt
  else if negb (endswith cf_rec_fqdn (expected_ending cfg)) then
    ret tt
  else if negb (isTailscaleIP E cf_rec_content) then
    emit (Report SKIP_DELETE_NON_MESH_IP cf_rec_fqdn cf_rec_content)
  else
    emit (Report DELETING_STALE cf_rec_fqdn cf_rec_content) ;;;
    emit (CallDelete (delete_args cf_ZoneId cf_rec)) ;;;
    call (deleteDNSRecord E (delete_args cf_ZoneId cf_rec)).

(** The cleanup loop (lines 93-124). *)
Definition cleanup_phase (cf_ZoneId : string) (desired : DesiredSet)
  (cf_records_for_cleanup : list ZoneRecord) : M W unit :=
  for_each (cleanup_step cf_ZoneId desired) cf_records_for_cleanup.

(** How a cycle ends: it runs to the last line, leaves by one of the
  five [return] statements, or an exception is raised inside [try].
  (The handlers of lines 126-133 only print; the first of them names
  [requests], which the module never imports.  Nothing more of the
  cycle runs in either case.) *)
Inductive cycle_end :=
| Finished
| NoZoneId
| NoZoneRecords
| InvalidMode
| NoMeshRecords
| NoCleanupRecords
| Raised.

(** Lines 47-124: from the check of [ts_records] to the end. *)
Definition diff_and_apply (cf_ZoneId : string)
  (cf_records_current : list ZoneRecord)
  (ts_records : option (list MeshDevice)) : M W cycle_end :=
  match ts_records with
  | None => ret NoMeshRecords
  | Some ts_recs =>
      let current_ts_fqdns_ips := build_desired (alterHostname E) cfg ts_recs in
      creation_phase cf_ZoneId cf_records_current current_ts_fqdns_ips ;;;
      cf_records_for_cleanup <-
        call (getZoneRecords E (cf_key cfg) (cf_domain cfg) cf_ZoneId) ;;
      match cf_records_for_cleanup with
      | None => ret NoCleanupRecords
      | Some recs =>
          cleanup_phase cf_ZoneId current_ts_fqdns_ips recs ;;;
          ret Finished
      end
  end.

(** Lines 26-124, the body of [try]. *)
Definition sync_body : M W cycle_end :=
  cf_ZoneId <- call (getZoneId E (cf_key cfg) (cf_domain cfg)) ;;
  match cf_ZoneId with
  | None => ret NoZoneId
  | Some zid =>
      if negb (truthy zid) then ret NoZoneId
      else
        cf_records_current <-
          call (getZoneRecords E (cf_key cfg) (cf_domain cfg) zid) ;;
        match cf_records_current with
        | None => ret NoZoneRecords
        | Some cur =>
            if mode cfg =? "tailscale" then
              ts_records <-
                call (getTailscaleDevice E (ts_key cfg) (ts_client_id cfg)
                        (ts_client_secret cfg) (ts_tailnet cfg)) ;;
              diff_and_apply zid cur ts_records
            else if mode cfg =? "headscale" then
              ts_records <-
                call (getHeadscaleDevice E (hs_apikey cfg) (hs_baseurl cfg)) ;;
              diff_and_apply zid cur ts_records
            else ret InvalidMode
        end
  end.

(** [perform_sync_cycle()]: how the cycle ended, the world it leaves and
  the events it produced. *)
Definition perform_sync_cycle (w : W) : cycle_end * W * list event :=
  match sync_body w with
  | (Val e, w', evs) => (e, w', evs)
  | (Exn, w', evs) => (Raised, w', evs)
  end.

End Engine.

(** ** A DNS zone that applies every mutation

  The mutators and fetchers live in [cloudflare.py], [tailscale.py] and
  [headscale.py].  To speak of "the zone after the creates are applied"
  the statements about whole cycles run the engine against the
  following provider. *)

(** State of the outside world: the records of the zone, the devices of
  the mesh and the zone identifier. *)
Record World := mkWorld {
  zone : list ZoneRecord;
  inventory : list MeshDevice;
  zone_ident : string
}.

(** An identifier that no record of [z] carries: it is longer than each
  of theirs. *)
Definition fresh_id (z : list ZoneRecord) : string :=
  String "n" (fold_right (fun r acc => id r ++ acc) "" z).

(** Modelled from the spec: the name of the record that the Record
  Mutator creates for a create call.  The call carries the
  untransformed label, the optional subdomain and the domain (section
  4.2, and the comment of line 81: the mutator expects the label without
  prefix and postfix); the record is the one the engine reports as
  [ADDING], transformed label + optional subdomain + domain. *)
Definition created_name (alter : string -> string) (a : CreateCall)
  : string :=
  alter (c_name a)
  ++ match c_subdomain a with
     | Some s => if truthy s then "." ++ s else ""
     | None => ""
     end
  ++ "." ++ c_domain a.

(** Modelled from the spec: Record create, when it succeeds, adds one
  record with the requested type and content. *)
Definition zone_create (alter : string -> string) (a : CreateCall)
  (z : list ZoneRecord) : list ZoneRecord :=
  (z ++ [ {| id := fresh_id z;
             name := created_name alter a;
             content := c_content a;
             rtype := c_type a |} ])%list.

(** Modelled from the spec: Record delete, when it succeeds, removes the
  record with the given id. *)
Definition zone_delete (a : DeleteCall) (z : list ZoneRecord)
  : list ZoneRecord :=
  filter (fun r => negb (id r =? d_id a)) z.

(** Modelled from the spec: the collaborators of section 6 when every
  call succeeds: the fetchers return the zone and the mesh inventory as
  they are, create and delete take effect at once. *)
Definition provider (valid mesh : string -> bool)
  (alter : string -> string) (ipa : string -> option ip_version)
  : Env World :=
  {| getZoneId := fun _ _ w => (Val (Some (zone_ident w)), w);
     getZoneRecords := fun _ _ _ w => (Val (Some (zone w)), w);
     getTailscaleDevice := fun _ _ _ _ w => (Val (Some (inventory w)), w);
     getHeadscaleDevice := fun _ _ w => (Val (Some (inventory w)), w);
     createDNSRecord := fun a w =>
       (Val tt, {| zone := zone_create alter a (zone w);
                   inventory := inventory w;
                   zone_ident := zone_ident w |});
     deleteDNSRecord := fun a w =>
       (Val tt, {| zone := zone_delete a (zone w);
                   inventory := inventory w;
                   zone_ident := zone_ident w |});
     isValidDNSRecord := valid;
     isTailscaleIP := mesh;
     alterHostname := alter;
     ip_address := ipa |}.

(** The managed subset of a zone (section 3): name under the managed
  suffix and content a mesh address. *)
Definition managed (cfg : Config) (mesh : string -> bool) (r : ZoneRecord)
  : bool :=
  endswith (lower (name r)) (expected_ending cfg) && mesh (content r).



(** ** Sample collaborators for the worked examples *)

Module Sample.

(** Modelled from the spec: Hostname transform, applies the configured
  prefix and postfix. *)
Definition affix (pre post : string) (label : string) : string :=
  pre ++ label ++ post.

Definition is_digit (c : ascii) : bool :=
  let n := N_of_ascii c in ((48 <=? n) && (n <=? 57))%N.

Definition is_alnum (c : ascii) : bool :=
  let n := N_of_ascii c in
  (is_digit c || ((65 <=? n) && (n <=? 90)) || ((97 <=? n) && (n <=? 122)))%N.

Fixpoint all_chars (p : ascii -> bool) (s : string) : bool :=
  match s with
  | EmptyString => true
  | String c s' => p c && all_chars p s'
  end.

Fixpoint last_char (s : string) : option ascii :=
  match s with
  | EmptyString => None
  | String c EmptyString => Some c
  | String _ s' => last_char s'
  end.

Definition is_hyphen (c : option ascii) : bool :=
  match c with Some c => (c =? "-")%char | None => false end.

(** Modelled from the spec: Hostname-validity predicate, the RFC-1123
  label rules: 1 to 63 letters, digits or hyphens, no hyphen at either
  end. *)
Definition rfc1123_label (s : string) : bool :=
  (1 <=? String.length s)%nat && (String.length s <=? 63)%nat
  && all_chars (fun c => is_alnum c || (c =? "-")%char) s
  && negb (is_hyphen (String.get 0 s))
  && negb (is_hyphen (last_char s)).

(** [s.split(sep)] *)
Fixpoint split_on (sep : ascii) (s : string) : list string :=
  match s with
  | EmptyString => [EmptyString]
  | String c s' =>
      if (c =? sep)%char then EmptyString :: split_on sep s'
      else match split_on sep s' with
           | [] => [String c EmptyString]
           | x :: xs => String c x :: xs
           end
  end.

Fixpoint decimal (acc : N) (s : string) : option N :=
  match s with
  | EmptyString => Some acc
  | String c s' =>
      if is_digit c then decimal (10 * acc + (N_of_ascii c - 48))%N s'
      else None
  end.

Definition is_zero_digit (c : option ascii) : bool :=
  match c with Some c => (c =? "0")%char | None => false end.

(** One octet of dotted-quad text as [ipaddress] reads it: 1 to 3
  digits, no leading zero, at most 255. *)
Definition octet (s : string) : option N :=
  let n := String.length s in
  if ((1 <=? n) && (n <=? 3))%nat
     && negb ((2 <=? n)%nat && is_zero_digit (String.get 0 s))
  then match decimal 0 s with
       | Some v => if (v <=? 255)%N then Some v else None
       | None => None
       end
  else None.

Definition ipv4_octets (s : string) : option (N * N * N * N) :=
  match split_on "." s with
  | [a; b; c; d] =>
      match octet a, octet b, octet c, octet d with
      | Some a, Some b, Some c, Some d => Some (a, b, c, d)
      | _, _, _, _ => None
      end
  | _ => None
  end.

(** [ipaddress.ip_address] on IPv4 dotted-quad text.  The worked
  examples use IPv4 text only; this instance does not read IPv6 text. *)
Definition ipv4_address (s : string) : option ip_version :=
  match ipv4_octets s with
  | Some _ => Some IPv4
  | None => None
  end.

(** Modelled from the spec: Mesh-address predicate, membership of the
  mesh provider's IPv4 range 100.64.0.0/10. *)
Definition mesh_ipv4 (s : string) : bool :=
  match ipv4_octets s with
  | Some (a, b, _, _) => ((a =? 100) && (64 <=? b) && (b <=? 127))%N
  | None => false
  end.

(** A configuration for [example.com] without subdomain. *)
Definition config (m : string) (sub : option string) : Config :=
  {| mode := m;
     cf_key := "token";
     cf_domain := "example.com";
     cf_sub := sub;
     ts_key := "";
     ts_client_id := "";
     ts_client_secret := "";
     ts_tailnet := "";
     hs_apikey := "apikey";
     hs_baseurl := "https://headscale.example.com" |}.

(** The provider with RFC-1123 validity, the IPv4 mesh range and no
  prefix or postfix. *)
Definition env : Env World :=
  provider rfc1123_label mesh_ipv4 (affix "" "") ipv4_address.

Definition world (z : list ZoneRecord) (i : list MeshDevice) : World :=
  {| zone := z; inventory := i; zone_ident := "zone-1" |}.

(** Modelled from the spec: Mesh-address predicate on IPv6 text whose
  first three groups are written in full: membership of the mesh
  provider's range fd7a:115c:a1e0::/48.  Used for the cleanup phase,
  which never parses an address itself. *)
Definition mesh_ula (s : string) : bool :=
  String.prefix "fd7a:115c:a1e0:" (lower s).

Definition env_ula : Env World :=
  provider rfc1123_label mesh_ula (affix "" "") ipv4_address.

(** The provider of [env], with the mesh-address predicate [mesh] and
  mutators that can fail: the delete call for the record id [bad] raises
  and the create call whose content is [bad] raises (a request that the
  DNS provider refuses or that does not get through); every other call
  is applied as in [env]. *)
Definition env_failing (mesh : string -> bool) (bad : string) : Env World :=
  {| getZoneId := getZoneId env;
     getZoneRecords := getZoneRecords env;
     getTailscaleDevice := getTailscaleDevice env;
     getHeadscaleDevice := getHeadscaleDevice env;
     createDNSRecord := fun a w =>
       if c_content a =? bad then (Exn, w) else createDNSRecord env a w;
     deleteDNSRecord := fun a w =>
       if d_id a =? bad then (Exn, w) else deleteDNSRecord env a w;
     isValidDNSRecord := rfc1123_label;
     isTailscaleIP := mesh;
     alterHostname := affix "" "";
     ip_address := ipv4_address |}.

End Sample.

(** ** The main block (lines 135-152) *)

Section MainBlock.

(** [int(s)]: [None] where Python raises [ValueError]. *)
Variable py_int : string -> option Z.

(** [os.environ.get('SYNC_INTERVAL_MINUTES', '15')]; the argument is the
  value of the variable, [None] when it is not set. *)
Definition sync_interval_minutes_str (env_value : option string) : string :=
  match env_value with
  | Some v => v
  | None => "15"
  end.

(** Lines 137-144: the interval in minutes. *)
Definition sync_interval_minutes (env_value : option string) : Z :=
  match py_int (sync_interval_minutes_str env_value) with
  | Some n => if (n <=? 0)%Z then 15%Z else n
  | None => 15%Z
  end.

(** Line 146. *)
Definition sync_interval_seconds (env_value : option string) : Z :=
  (sync_interval_minutes env_value * 60)%Z.

(** [time.sleep(seconds)]: [true] when the call returns, [false] when it
  raises (a negative length, or a length that the platform's clock
  cannot take: [OverflowError], [OSError]). *)
Variable py_sleep : Z -> bool.

Variable W : Type.
Variable E : Env W.
Variable cfg : Config.

(** The first [n] iterations of the [while True] loop of lines 149-152,
  sleeping [seconds] after each cycle.  An exception raised inside [try]
  leaves [perform_sync_cycle] (the first handler names [requests], which
  is not imported) and so leaves the loop: a cycle that ends [Raised] is
  the last one.  The sleep of line 152 is outside any [try]: when it
  raises, the loop ends after the cycle that came before it.  The result
  is the way each cycle that ran ended, the world after the last one and
  all events.  The configuration read by [getConfig()] is the same in
  every cycle; the world does not change while the loop sleeps. *)
Fixpoint main_loop (seconds : Z) (n : nat) (w : W)
  : list cycle_end * W * list event :=
  match n with
  | O => ([], w, [])
  | S n' =>
      match perform_sync_cycle E cfg w with
      | (Raised, w', evs) => ([Raised], w', evs)
      | (e, w', evs) =>
          if py_sleep seconds then
            match main_loop seconds n' w' with
            | (es, w'', evs') => (e :: es, w'', (evs ++ evs')%list)
            end
          else ([e], w', evs)
      end
  end.

(** Lines 136-152: the interval is read, then the loop runs with it. *)
Definition main (env_value : option string) (n : nat) (w : W)
  : list cycle_end * W * list event :=
  main_loop (sync_interval_seconds env_value) n w.

End MainBlock.

(** [int] on text of code points below 256: blanks around, an optional
  sign, decimal digits with single underscores between them. *)
Module SampleInt.

Definition is_blank (c : ascii) : bool :=
  let n := N_of_ascii c in
  (((9 <=? n) && (n <=? 13)) || (n =? 32) || (n =? 133) || (n =? 160))%N.

Fixpoint lstrip (s : string) : string :=
  match s with
  | String c s' => if is_blank c then lstrip s' else s
  | EmptyString => EmptyString
  end.

Fixpoint rstrip (s : string) : string :=
  match s with
  | EmptyString => EmptyString
  | String c s' =>
      match rstrip s' with
      | EmptyString => if is_blank c then EmptyString else String c EmptyString
      | t => String c t
      end
  end.

(** Digits after the first: each underscore is followed by a digit. *)
Fixpoint digits (acc : Z) (s : string) : option Z :=
  match s with
  | EmptyString => Some acc
  | String c s' =>
      if Sample.is_digit c then
        digits (10 * acc + Z.of_N (N_of_ascii c - 48))%Z s'
      else if (c =? "_")%char then
        match s' with
        | String d _ => if Sample.is_digit d then digits acc s' else None
        | EmptyString => None
        end
      else None
  end.

Definition unsigned (s : string) : option Z :=
  match s with
  | String c _ => if Sample.is_digit c then digits 0 s else None
  | EmptyString => None
  end.

Definition int (s : string) : option Z :=
  match rstrip (lstrip s) with
  | String "+" t => unsigned t
  | String "-" t => option_map Z.opp (unsigned t)
  | t => unsigned t
  end.

(** [time.sleep] for the worked examples: it returns for a length from 0
  to 1000000000 seconds, which every platform takes.  Beyond that the
  answer depends on the platform; this instance answers that it
  raises. *)
Definition sleep (seconds : Z) : bool :=
  ((0 <=? seconds) && (seconds <=? 1000000000))%Z.

End SampleInt.

(** The examples of section 8 of the specification. *)
Example laptop_created :
  perform_sync_cycle Sample.env (Sample.config "headscale" None)
    (Sample.world [] [mkDevice "laptop" "100.64.0.1"])
  = (Finished,
     Sample.world
       [mkZoneRecord "n" "laptop.example.com" "100.64.0.1" "A"]
       [mkDevice "laptop" "100.64.0.1"],
     [Report ADDING "laptop.example.com" "100.64.0.1";
      CallCreate (mkCreate "token" "example.com" "laptop" "A" "100.64.0.1"
                    None "zone-1")]).
Proof. vm_compute. reflexivity. Qed.

Example laptop_up_to_date :
  perform_sync_cycle Sample.env (Sample.config "headscale" None)
    (Sample.world [mkZoneRecord "r1" "laptop.example.com" "100.64.0.1" "A"]
                  [mkDevice "laptop" "100.64.0.1"])
  = (Finished,
     Sample.world [mkZoneRecord "r1" "laptop.example.com" "100.64.0.1" "A"]
                  [mkDevice "laptop" "100.64.0.1"],
     [Report UP_TO_DATE "laptop.example.com" "100.64.0.1"]).
Proof. vm_compute. reflexivity. Qed.

Example old_record_deleted :
  perform_sync_cycle Sample.env (Sample.config "headscale" None)
    (Sample.world [mkZoneRecord "r9" "old.example.com" "100.64.0.9" "A"] [])
  = (Finished,
     Sample.world [] [],
     [Report DELETING_STALE "old.example.com" "100.64.0.9";
      CallDelete (mkDelete "token" "example.com" "r9" "zone-1")]).
Proof. vm_compute. reflexivity. Qed.

Example printer_kept :
  perform_sync_cycle Sample.env (Sample.config "headscale" None)
    (Sample.world [mkZoneRecord "r5" "printer.example.com" "203.0.113.5" "A"]
                  [])
  = (Finished,
     Sample.world [mkZoneRecord "r5" "printer.example.com" "203.0.113.5" "A"]
                  [],
     [Report SKIP_DELETE_NON_MESH_IP "printer.example.com" "203.0.113.5"]).
Proof. vm_compute. reflexivity. Qed.

(** ** Facts about the string operations *)

Section StringFacts.



Lemma length_sapp (a b : string) :
  String.length (a ++ b) = String.length a + String.length b.
Proof. induction a as [|x a IH]; simpl; [reflexivity | now rewrite IH]. Qed.

Lemma lower_char_idem (c : ascii) : lower_char (lower_char c) = lower_char c.
Proof.
  destruct c as [[] [] [] [] [] [] [] []]; vm_compute; reflexivity.
Qed.

Lemma lower_idem (s : string) : lower (lower s) = lower s.
Proof.
  induction s as [|c s IH]; simpl; [reflexivity|].
  now rewrite lower_char_idem, IH.
Qed.

Lemma lower_sapp (a b : string) : lower (a ++ b) = lower a ++ lower b.
Proof. induction a as [|x a IH]; simpl; [reflexivity | now rewrite IH]. Qed.

Lemma endswith_refl (s : string) : endswith s s = true.
Proof. destruct s; cbn [endswith]; now rewrite String.eqb_refl. Qed.

Lemma endswith_sapp (p s : string) : endswith (p ++ s) s = true.
Proof.
  induction p as [|c p IH]; cbn [endswith append].
  - apply endswith_refl.
  - rewrite IH. apply orb_true_r.
Qed.

Lemma endswith_spec (s suffix : string) :
  endswith s suffix = true <-> exists p, s = p ++ suffix.
Proof.
  split.
  - induction s as [|c s IH]; cbn [endswith]; intros H.
    + apply orb_true_iff in H as [H|H]; [|discriminate].
      apply String.eqb_eq in H. exists "". now subst.
    + apply orb_true_iff in H as [H|H].
      * apply String.eqb_eq in H. exists "". now subst.
      * destruct (IH H) as [p Hp]. exists (String c p). simpl. now rewrite Hp.
  - intros [p ->]. apply endswith_sapp.
Qed.

Lemma contains_char_mid (c : ascii) (a b : string) :
  contains_char c (a ++ String c b) = true.
Proof.
  induction a as [|x a IH]; cbn [append contains_char].
  - now rewrite Ascii.eqb_refl.
  - rewrite IH. apply orb_true_r.
Qed.

(** The dictionary key determines the pair it was built from when the
  second component holds no underscore.  This is the assumption on
  which the key [fqdn + "_" + address] stands. *)
Lemma key_injective (f1 a1 f2 a2 : string) :
  contains_char "_" a1 = false ->
  contains_char "_" a2 = false ->
  f1 ++ "_" ++ a1 = f2 ++ "_" ++ a2 ->
  f1 = f2 /\ a1 = a2.
Proof.
  intros H1 H2. revert f2.
  induction f1 as [|c f1 IH]; intros [|c2 f2] Heq; cbn [append] in Heq.
  - injection Heq as ->. now split.
  - injection Heq as Hc Ht. subst c2.
    pose proof (contains_char_mid "_" f2 a2) as Hin.
    cbn [append] in Ht. rewrite <- Ht in Hin. congruence.
  - injection Heq as Hc Ht. subst c.
    pose proof (contains_char_mid "_" f1 a1) as Hin.
    cbn [append] in Ht. rewrite Ht in Hin. congruence.
  - injection Heq as -> Ht. destruct (IH _ Ht) as [-> ->]. now split.
Qed.

Lemma sapp_inv_head (p a b : string) : p ++ a = p ++ b -> a = b.
Proof.
  induction p as [|c p IH]; simpl; intros H; [assumption|].
  injection H as H. now apply IH.
Qed.

End StringFacts.

(** ** Facts about dictionaries *)

Section DictFacts.
Variable V : Type.
Implicit Types (d : PyDict.dict V) (k : string) (v : V).

Lemma get_set_same k v d : PyDict.get k (PyDict.set k v d) = Some v.
Proof.
  induction d as [|[k' v'] d IH]; simpl.
  - now rewrite String.eqb_refl.
  - destruct (k' =? k) eqn:Hk; simpl.
    + now rewrite String.eqb_refl.
    + now rewrite Hk.
Qed.

Lemma get_set_other k k0 v d :
  k0 <> k -> PyDict.get k0 (PyDict.set k v d) = PyDict.get k0 d.
Proof.
  intros Hne. induction d as [|[k' v'] d IH]; simpl.
  - destruct (String.eqb_spec k k0); [congruence | reflexivity].
  - destruct (String.eqb_spec k' k) as [->|Hk]; simpl.
    + destruct (String.eqb_spec k k0); [congruence | reflexivity].
    + now rewrite IH.
Qed.

Lemma mem_keys k d : PyDict.mem k d = true <-> In k (PyDict.keys d).
Proof.
  induction d as [|[k' v'] d IH]; simpl.
  - split; [discriminate | tauto].
  - rewrite orb_true_iff, IH, String.eqb_eq. tauto.
Qed.

Lemma mem_get k d :
  PyDict.mem k d = true <-> exists v, PyDict.get k d = Some v.
Proof.
  induction d as [|[k' v'] d IH]; simpl.
  - split; [discriminate | intros [v H]; discriminate].
  - destruct (k' =? k); simpl; [|exact IH].
    split; [intros _; now exists v' | reflexivity].
Qed.

Lemma get_In k v d : PyDict.get k d = Some v -> In (k, v) d.
Proof.
  induction d as [|[k' v'] d IH]; simpl; [discriminate|].
  destruct (String.eqb_spec k' k) as [->|Hk].
  - intros H. injection H as ->. now left.
  - intros H. right. now apply IH.
Qed.

Lemma In_keys k v d : In (k, v) d -> In k (PyDict.keys d).
Proof. intros H. apply (in_map fst) in H. exact H. Qed.

Lemma keys_set k k0 v d :
  In k0 (PyDict.keys (PyDict.set k v d)) <-> k0 = k \/ In k0 (PyDict.keys d).
Proof.
  induction d as [|[k' v'] d IH]; simpl.
  - intuition congruence.
  - destruct (String.eqb_spec k' k) as [->|Hk]; simpl.
    + intuition congruence.
    + rewrite IH. intuition congruence.
Qed.

Lemma NoDup_keys_set k v d :
  NoDup (PyDict.keys d) -> NoDup (PyDict.keys (PyDict.set k v d)).
Proof.
  induction d as [|[k' v'] d IH]; simpl; intros Hnd.
  - constructor; [tauto | constructor].
  - inversion Hnd as [|? ? Hnotin Hnd']; subst.
    destruct (String.eqb_spec k' k) as [->|Hk]; simpl.
    + now constructor.
    + constructor; [|now apply IH].
      rewrite keys_set. intros [->|Hin]; [congruence | contradiction].
Qed.

Lemma In_set k k0 v v0 d :
  In (k0, v0) (PyDict.set k v d) ->
  (k0 = k /\ v0 = v) \/ In (k0, v0) d.
Proof.
  induction d as [|[k' v'] d IH]; simpl.
  - intros [H|[]]. injection H as <- <-. now left.
  - destruct (k' =? k); simpl.
    + intros [H|H]; [injection H as <- <-; now left | right; now right].
    + intros [H|H]; [right; now left|].
      destruct (IH H) as [?|?]; [now left | right; now right].
Qed.

Lemma NoDup_keys_get k v d :
  NoDup (PyDict.keys d) -> In (k, v) d -> PyDict.get k d = Some v.
Proof.
  induction d as [|[k' v'] d IH]; simpl; intros Hnd H; [contradiction|].
  destruct H as [H|H].
  - injection H as -> ->. now rewrite String.eqb_refl.
  - inversion Hnd as [|? ? Hnotin Hnd']; subst.
    destruct (String.eqb_spec k' k) as [->|Hk]; [|now apply IH].
    exfalso. apply Hnotin. eapply In_keys. eassumption.
Qed.

(** A key of a dictionary with distinct keys labels one item. *)
Lemma NoDup_keys_count k d :
  NoDup (PyDict.keys d) -> PyDict.mem k d = true ->
  length (filter (fun it => fst it =? k) (PyDict.items d)) = 1.
Proof.
  unfold PyDict.items.
  induction d as [|[k' v'] d IH]; simpl; intros Hnd Hmem; [discriminate|].
  inversion Hnd as [|? ? Hnotin Hnd']; subst.
  destruct (String.eqb_spec k' k) as [->|Hk]; simpl in *.
  - f_equal. clear IH Hmem Hnd.
    induction d as [|[k2 v2] d IH]; simpl in *; [reflexivity|].
    destruct (String.eqb_spec k2 k) as [->|Hk2]; [tauto|].
    apply IH; [tauto | now inversion Hnd'].
  - now apply IH.
Qed.

End DictFacts.

(** ** Facts about the desired-state builder *)

Section BuilderFacts.
Variable alter : string -> string.
Variable cfg : Config.

#[local] Abbreviation key_of := (key_of alter cfg).
#[local] Abbreviation record_of := (record_of alter cfg).
#[local] Abbreviation build_from := (build_from alter cfg).
#[local] Abbreviation build_desired := (build_desired alter cfg).

Lemma build_from_NoDup acc l :
  NoDup (PyDict.keys acc) -> NoDup (PyDict.keys (build_from acc l)).
Proof.
  revert acc. induction l as [|dev l IH]; simpl; intros acc H; [exact H|].
  apply IH. now apply NoDup_keys_set.
Qed.

Lemma build_desired_NoDup l : NoDup (PyDict.keys (build_desired l)).
Proof. apply build_from_NoDup. constructor. Qed.

Lemma build_from_app acc l1 l2 :
  build_from acc (l1 ++ l2) = build_from (build_from acc l1) l2.
Proof.
  revert acc. induction l1 as [|dev l1 IH]; simpl; intros acc;
    [reflexivity | apply IH].
Qed.

(** Devices with other keys leave the value of a key as it is. *)
Lemma build_from_get_other acc l k :
  (forall dev, In dev l -> key_of dev <> k) ->
  PyDict.get k (build_from acc l) = PyDict.get k acc.
Proof.
  revert acc. induction l as [|dev l IH]; simpl; intros acc H;
    [reflexivity|].
  rewrite IH by (intros; apply H; now right).
  apply get_set_other. intros ->. now apply (H dev); [left|].
Qed.

(** Every item of the dictionary was written for some device. *)
Lemma build_from_items acc l k r :
  In (k, r) (build_from acc l) ->
  In (k, r) acc \/ exists dev, In dev l /\ k = key_of dev /\ r = record_of dev.
Proof.
  revert acc. induction l as [|dev l IH]; simpl; intros acc H; [now left|].
  destruct (IH _ H) as [Hin|(dev' & Hin & Hk & Hr)].
  - destruct (In_set _ _ _ _ _ Hin) as [[-> ->]|Hacc]; [|now left].
    right. exists dev. auto.
  - right. exists dev'. auto.
Qed.

(** Keys are never removed. *)
Lemma build_from_keeps_keys acc l k :
  In k (PyDict.keys acc) -> In k (PyDict.keys (build_from acc l)).
Proof.
  revert acc. induction l as [|dev l IH]; simpl; intros acc H; [exact H|].
  apply IH. apply keys_set. now right.
Qed.

Lemma build_from_has_key acc l dev :
  In dev l -> PyDict.mem (key_of dev) (build_from acc l) = true.
Proof.
  revert acc. induction l as [|dev' l IH]; simpl; intros acc H;
    [contradiction|].
  destruct H as [->|H].
  - apply mem_keys, build_from_keeps_keys, keys_set. now left.
  - now apply IH.
Qed.

End BuilderFacts.

(** ** The desired-state builder: fqdn, key and suffix *)

(** X16.  For every device of the inventory the builder writes a record
  whose fqdn is the hostname transform applied to the lower-cased first
  label of the hostname, then "." and the lower-cased subdomain when a
  non-empty subdomain is configured, then "." and the lower-cased
  domain.  The record is stored under the key fqdn + "_" + address,
  every fqdn ends with the managed suffix, which is lower-case, and
  every item of the dictionary is such a record under such a key. *)
Theorem builder_fqdn_key_suffix (alter : string -> string) (cfg : Config)
  (ts_records : list MeshDevice) :
  (forall dev, In dev ts_records ->
     let r := record_of alter cfg dev in
     let label := alter (lower (first_label (hostname dev))) in
     fqdn r = label
              ++ match cf_sub cfg with
                 | Some (String c s) => "." ++ lower (String c s)
                 | _ => ""
                 end
              ++ "." ++ lower (cf_domain cfg)
     /\ ts_address r = address dev
     /\ endswith (fqdn r) (expected_ending cfg) = true
     /\ lower (expected_ending cfg) = expected_ending cfg
     /\ PyDict.get (fqdn r ++ "_" ++ address dev)
          (build_desired alter cfg ts_records) <> None)
  /\ (forall k r,
        In (k, r) (PyDict.items (build_desired alter cfg ts_records)) ->
        exists dev, In dev ts_records /\ r = record_of alter cfg dev
                    /\ k = fqdn r ++ "_" ++ ts_address r).
Proof.
  assert (Hsuf : lower (expected_ending cfg) = expected_ending cfg).
  { unfold expected_ending, sub_part.
    destruct (cf_sub cfg) as [[|c s]|]; cbn [truthy];
      rewrite ?lower_sapp, ?lower_idem; reflexivity. }
  split.
  - intros dev Hin r label. subst r label. cbn [fqdn ts_address record_of].
    repeat split.
    + unfold tsfqdn_of, hostname_part, sub_part.
      destruct (cf_sub cfg) as [[|c s]|]; reflexivity.
    + unfold tsfqdn_of. apply endswith_sapp.
    + exact Hsuf.
    + pose proof (build_from_has_key alter cfg (PyDict.empty _) ts_records
                    dev Hin) as Hmem.
      apply mem_get in Hmem as [v Hv].
      unfold build_desired, key_of in *. rewrite Hv. discriminate.
  - intros k r Hin.
    destruct (build_from_items alter cfg _ _ _ _ Hin)
      as [[]|(dev & Hdev & -> & ->)].
    exists dev. repeat split; assumption.
Qed.

Lemma builder_fqdn_key_suffix_witness :
  PyDict.get "laptop.example.com_100.64.0.1"
    (build_desired (Sample.affix "" "") (Sample.config "headscale" None)
       [mkDevice "Laptop.mesh.local" "100.64.0.1"]) <> None.
Proof.
  apply (proj1 (builder_fqdn_key_suffix (Sample.affix "" "")
                  (Sample.config "headscale" None)
                  [mkDevice "Laptop.mesh.local" "100.64.0.1"])
               (mkDevice "Laptop.mesh.local" "100.64.0.1")).
  simpl. left. reflexivity.
Defined.

(** A zone name is lower-cased before it is compared (line 73): a fqdn
  with a capital letter is matched by no zone record. *)
Lemma capital_fqdn_never_matched (cur : list ZoneRecord) (f a : string) :
  lower f <> f -> up_to_date cur f a = false.
Proof.
  intros Hf. unfold up_to_date.
  induction cur as [|c cur IH]; [reflexivity|].
  cbn [existsb]. rewrite IH, orb_false_r.
  destruct (String.eqb_spec (lower (name c)) f) as [Heq|_]; [|reflexivity].
  exfalso. apply Hf. rewrite <- Heq. apply lower_idem.
Qed.

(** C7 (code defect).  The fqdn is specified to be lower-case as a
  whole.  Line 63 lower-cases the label before the hostname transform and
  nothing lower-cases what the transform returns: with the prefix "TS-"
  the builder stores the fqdn "TS-laptop.example.com" for the device
  "laptop".  This fqdn is not lower-case, and since zone names are
  lower-cased before they are compared, no zone record ever matches
  it. *)
Theorem builder_fqdn_upper_prefix :
  build_desired (Sample.affix "TS-" "") (Sample.config "headscale" None)
    [mkDevice "laptop" "100.64.0.1"]
  = [("TS-laptop.example.com_100.64.0.1",
      mkDesired "TS-laptop.example.com" "100.64.0.1" "laptop")]
  /\ lower "TS-laptop.example.com" <> "TS-laptop.example.com"
  /\ forall cur : list ZoneRecord,
       up_to_date cur "TS-laptop.example.com" "100.64.0.1" = false.
Proof.
  split; [reflexivity|]. split; [discriminate|].
  intros cur. apply capital_fqdn_never_matched. discriminate.
Qed.

(** C8.  When two devices of the inventory have the same fqdn and the
  same address, the dictionary holds one item under their key, and its
  value is the record of the device that comes last with this key. *)
Theorem builder_last_write_wins (alter : string -> string) (cfg : Config)
  (l1 l2 l3 : list MeshDevice) (d1 d2 : MeshDevice) :
  tsfqdn_of alter cfg d1 = tsfqdn_of alter cfg d2 ->
  address d1 = address d2 ->
  (forall d, In d l3 -> key_of alter cfg d <> key_of alter cfg d2) ->
  let desired := build_desired alter cfg (l1 ++ d1 :: l2 ++ d2 :: l3) in
  key_of alter cfg d1 = key_of alter cfg d2
  /\ PyDict.get (key_of alter cfg d2) desired = Some (record_of alter cfg d2)
  /\ length (filter (fun it => fst it =? key_of alter cfg d2)
                    (PyDict.items desired)) = 1.
Proof.
  intros Hf Ha Hlast desired. subst desired.
  split; [unfold key_of; now rewrite Hf, Ha|].
  assert (Hget : PyDict.get (key_of alter cfg d2)
                   (build_desired alter cfg (l1 ++ d1 :: l2 ++ d2 :: l3))
                 = Some (record_of alter cfg d2)).
  { unfold build_desired.
    change (l1 ++ d1 :: l2 ++ d2 :: l3)%list
      with (l1 ++ (d1 :: l2) ++ d2 :: l3)%list.
    rewrite List.app_assoc, build_from_app. simpl.
    rewrite build_from_get_other by exact Hlast.
    apply get_set_same. }
  split; [exact Hget|].
  apply NoDup_keys_count; [apply build_desired_NoDup|].
  apply mem_get. eauto.
Qed.

Lemma builder_last_write_wins_witness :
  PyDict.get "laptop.example.com_100.64.0.1"
    (build_desired (Sample.affix "" "") (Sample.config "headscale" None)
       [mkDevice "Laptop" "100.64.0.1"; mkDevice "laptop.local" "100.64.0.1"])
  = Some (mkDesired "laptop.example.com" "100.64.0.1" "laptop.local").
Proof.
  apply (builder_last_write_wins (Sample.affix "" "")
           (Sample.config "headscale" None) [] [] []
           (mkDevice "Laptop" "100.64.0.1")
           (mkDevice "laptop.local" "100.64.0.1")).
  - reflexivity.
  - reflexivity.
  - simpl. intros d [].
Defined.

(** ** Facts about runs and loops *)

Section RunFacts.
Variable W : Type.

Lemma events_bind {A B} (m : M W A) (k : A -> M W B) (w : W) :
  events (bind m k w)
  = match outcome (m w) with
    | Val a => (events (m w) ++ events (k a (world_after (m w))))%list
    | Exn => events (m w)
    end.
Proof.
  unfold bind, events, outcome, world_after.
  destruct (m w) as [[[a|] w1] e1]; simpl; [|reflexivity].
  destruct (k a w1) as [[r w2] e2]. reflexivity.
Qed.

Lemma outcome_bind {A B} (m : M W A) (k : A -> M W B) (w : W) :
  outcome (bind m k w)
  = match outcome (m w) with
    | Val a => outcome (k a (world_after (m w)))
    | Exn => Exn
    end.
Proof.
  unfold bind, events, outcome, world_after.
  destruct (m w) as [[[a|] w1] e1]; simpl; [|reflexivity].
  destruct (k a w1) as [[r w2] e2]. reflexivity.
Qed.

Lemma world_bind {A B} (m : M W A) (k : A -> M W B) (w : W) :
  world_after (bind m k w)
  = match outcome (m w) with
    | Val a => world_after (k a (world_after (m w)))
    | Exn => world_after (m w)
    end.
Proof.
  unfold bind, events, outcome, world_after.
  destruct (m w) as [[[a|] w1] e1]; simpl; [|reflexivity].
  destruct (k a w1) as [[r w2] e2]. reflexivity.
Qed.


(** An event of a loop is an event of one of its iterations. *)
Lemma for_each_event_origin {A} (body : A -> M W unit) (l : list A)
  (w : W) (e : event) :
  In e (events (for_each body l w)) ->
  exists x w', In x l /\ In e (events (body x w')).
Proof.
  revert w. induction l as [|x l IH]; intros w; cbn [for_each].
  - intros [].
  - rewrite events_bind. destruct (outcome (body x w)) as [[]|].
    + intros H. apply in_app_or in H as [H|H].
      * exists x, w. split; [now left | exact H].
      * destruct (IH _ H) as (y & w' & Hy & He).
        exists y, w'. split; [now right | exact He].
    + intros H. exists x, w. split; [now left | exact H].
Qed.


Lemma in_creates (a : CreateCall) (evs : list event) :
  In a (creates evs) <-> In (CallCreate a) evs.
Proof.
  induction evs as [|[c f i|b|b] evs IH]; simpl.
  - tauto.
  - rewrite IH. intuition discriminate.
  - rewrite IH. intuition congruence.
  - rewrite IH. intuition discriminate.
Qed.

Lemma in_deletes (a : DeleteCall) (evs : list event) :
  In a (deletes evs) <-> In (CallDelete a) evs.
Proof.
  induction evs as [|[c f i|b|b] evs IH]; simpl.
  - tauto.
  - rewrite IH. intuition discriminate.
  - rewrite IH. intuition discriminate.
  - rewrite IH. intuition congruence.
Qed.

Lemma reports_app (e1 e2 : list event) :
  reports (e1 ++ e2) = (reports e1 ++ reports e2)%list.
Proof.
  induction e1 as [|[c f i|b|b] e1 IH]; simpl; [reflexivity| |assumption..].
  now rewrite IH.
Qed.

Lemma creates_app (e1 e2 : list event) :
  creates (e1 ++ e2) = (creates e1 ++ creates e2)%list.
Proof.
  induction e1 as [|[c f i|b|b] e1 IH]; simpl; [reflexivity| | |assumption];
    [assumption | now rewrite IH].
Qed.

(** A loop over [l1 ++ l2] whose first part runs to its end goes on with
  the second part. *)
Lemma for_each_app_run {A} (body : A -> M W unit) (l1 l2 : list A) (w : W) :
  outcome (for_each body l1 w) = Val tt ->
  outcome (for_each body (l1 ++ l2) w)
  = outcome (for_each body l2 (world_after (for_each body l1 w)))
  /\ world_after (for_each body (l1 ++ l2) w)
     = world_after (for_each body l2 (world_after (for_each body l1 w)))
  /\ events (for_each body (l1 ++ l2) w)
     = (events (for_each body l1 w)
        ++ events (for_each body l2 (world_after (for_each body l1 w))))%list.
Proof.
  revert w. induction l1 as [|x l1 IH]; intros w.
  - intros _. repeat split.
  - cbn [for_each app].
    rewrite !outcome_bind, !world_bind, !events_bind.
    destruct (outcome (body x w)) as [[]|]; [|discriminate].
    intros H. destruct (IH _ H) as (H1 & H2 & H3).
    rewrite H1, H2, H3, List.app_assoc. repeat split.
Qed.

End RunFacts.

(** ** The cleanup phase *)

Section CleanupFacts.
Variable W : Type.
Variable E : Env W.
Variable cfg : Config.
Variable cf_ZoneId : string.
Variable desired : DesiredSet.

(** The four ways through the body of the cleanup loop. *)
Lemma cleanup_step_cases (cf_rec : ZoneRecord) (w : W) :
  let key := lower (name cf_rec) ++ "_" ++ content cf_rec in
  let run := cleanup_step E cfg cf_ZoneId desired cf_rec w in
  (PyDict.mem key desired = true /\ run = (Val tt, w, []))
  \/ (PyDict.mem key desired = false
      /\ endswith (lower (name cf_rec)) (expected_ending cfg) = false
      /\ run = (Val tt, w, []))
  \/ (PyDict.mem key desired = false
      /\ endswith (lower (name cf_rec)) (expected_ending cfg) = true
      /\ isTailscaleIP E (content cf_rec) = false
      /\ run = (Val tt, w,
                [Report SKIP_DELETE_NON_MESH_IP (lower (name cf_rec))
                        (content cf_rec)]))
  \/ (PyDict.mem key desired = false
      /\ endswith (lower (name cf_rec)) (expected_ending cfg) = true
      /\ isTailscaleIP E (content cf_rec) = true
      /\ run = (fst (deleteDNSRecord E (delete_args cfg cf_ZoneId cf_rec) w),
                snd (deleteDNSRecord E (delete_args cfg cf_ZoneId cf_rec) w),
                [Report DELETING_STALE (lower (name cf_rec)) (content cf_rec);
                 CallDelete (delete_args cfg cf_ZoneId cf_rec)])).
Proof.
  intros key run. subst key run. unfold cleanup_step.
  destruct (PyDict.mem _ desired); [now left|]. right.
  destruct (endswith _ _); cbn [negb]; [|now left]. right.
  destruct (isTailscaleIP E _); cbn [negb]; [right | now left].
  repeat split. unfold bind, emit, call.
  destruct (deleteDNSRecord E _ w) as [[|] w']; reflexivity.
Qed.

(** Every delete call of the cleanup loop is the call of line 124 for a
  record of the snapshot that passed the three gates. *)
Lemma cleanup_delete_origin (recs : list ZoneRecord) (w : W)
  (a : DeleteCall) :
  In a (deletes (events (cleanup_phase E cfg cf_ZoneId desired recs w))) ->
  exists r, In r recs /\ a = delete_args cfg cf_ZoneId r
    /\ PyDict.mem (lower (name r) ++ "_" ++ content r) desired = false
    /\ endswith (lower (name r)) (expected_ending cfg) = true
    /\ isTailscaleIP E (content r) = true.
Proof.
  intros H. apply in_deletes in H.
  apply for_each_event_origin in H as (r & w' & Hr & He).
  exists r. split; [exact Hr|].
  destruct (cleanup_step_cases r w')
    as [[_ Hrun]|[(_ & _ & Hrun)|[(_ & _ & _ & Hrun)|(Hm & Hs & Hi & Hrun)]]];
    cbv zeta in Hrun; rewrite Hrun in He; cbn [events snd] in He.
  - destruct He.
  - destruct He.
  - destruct He as [He|[]]. discriminate.
  - destruct He as [He|[He|[]]]; [discriminate|].
    injection He as <-. auto.
Qed.

End CleanupFacts.

(** C2.  The cleanup phase never issues a delete call for a zone record
  whose lower-cased name does not end with the managed suffix: the loop
  body does nothing at all for such a record, and every delete call of
  the phase carries the id of a snapshot record whose lower-cased name
  ends with the suffix. *)
Theorem cleanup_scope_safety (W : Type) (E : Env W) (cfg : Config)
  (cf_ZoneId : string) (desired : DesiredSet) :
  (forall cf_rec w,
     endswith (lower (name cf_rec)) (expected_ending cfg) = false ->
     cleanup_step E cfg cf_ZoneId desired cf_rec w = (Val tt, w, []))
  /\ (forall recs w a,
        In a (deletes (events (cleanup_phase E cfg cf_ZoneId desired recs w)))
        -> exists r, In r recs /\ d_id a = id r
             /\ endswith (lower (name r)) (expected_ending cfg) = true)
  /\ expected_ending cfg
     = match cf_sub cfg with
       | Some (String c s) => "." ++ lower (String c s)
       | _ => ""
       end ++ "." ++ lower (cf_domain cfg).
Proof.
  split; [|split].
  - intros r w Hs.
    destruct (cleanup_step_cases E cfg cf_ZoneId desired r w)
      as [[_ Hrun]|[(_ & _ & Hrun)|[(_ & Hs' & _)|(_ & Hs' & _)]]];
      try exact Hrun; congruence.
  - intros recs w a H.
    apply cleanup_delete_origin in H as (r & Hr & -> & _ & Hs & _).
    exists r. auto.
  - unfold expected_ending, sub_part.
    destruct (cf_sub cfg) as [[|c s]|]; reflexivity.
Qed.

Lemma cleanup_scope_safety_witness :
  cleanup_step Sample.env (Sample.config "headscale" None) "zone-1" []
    (mkZoneRecord "r7" "www.example.org" "100.64.0.7" "A")
    (Sample.world [] [])
  = (Val tt, Sample.world [] [], []).
Proof.
  apply (proj1 (cleanup_scope_safety Sample.env
                  (Sample.config "headscale" None) "zone-1" [])).
  vm_compute. reflexivity.
Defined.

(** C3 (amended).  A zone record whose name ends with the managed suffix
  and whose content fails the mesh-address predicate is never deleted.
  When its key is not in the desired set it is reported
  SKIP-DELETE-NON-MESH-IP; when its key is in the desired set it is
  current and skipped without a report. *)
Theorem cleanup_non_mesh_protected (W : Type) (E : Env W) (cfg : Config)
  (cf_ZoneId : string) (desired : DesiredSet) :
  (forall cf_rec w,
     endswith (lower (name cf_rec)) (expected_ending cfg) = true ->
     isTailscaleIP E (content cf_rec) = false ->
     let key := lower (name cf_rec) ++ "_" ++ content cf_rec in
     let run := cleanup_step E cfg cf_ZoneId desired cf_rec w in
     outcome run = Val tt /\ world_after run = w
     /\ deletes (events run) = []
     /\ (PyDict.mem key desired = false ->
         events run = [Report SKIP_DELETE_NON_MESH_IP (lower (name cf_rec))
                              (content cf_rec)])
     /\ (PyDict.mem key desired = true -> events run = []))
  /\ (forall recs w a,
        In a (deletes (events (cleanup_phase E cfg cf_ZoneId desired recs w)))
        -> exists r, In r recs /\ d_id a = id r
             /\ isTailscaleIP E (content r) = true).
Proof.
  split.
  - intros r w Hs Hi key run. subst key run.
    destruct (cleanup_step_cases E cfg cf_ZoneId desired r w)
      as [[Hm Hrun]|[(_ & Hs' & _)|[(Hm & _ & _ & Hrun)|(_ & _ & Hi' & _)]]];
      try congruence; cbv zeta in Hrun; rewrite Hrun;
      cbn [outcome world_after events fst snd deletes];
      repeat split; congruence.
  - intros recs w a H.
    apply cleanup_delete_origin in H as (r & Hr & -> & _ & _ & Hi).
    exists r. auto.
Qed.

Lemma cleanup_non_mesh_protected_witness :
  deletes (events
    (cleanup_step Sample.env (Sample.config "headscale" None) "zone-1" []
       (mkZoneRecord "r5" "printer.example.com" "203.0.113.5" "A")
       (Sample.world [] []))) = [].
Proof.
  apply (proj1 (cleanup_non_mesh_protected Sample.env
                  (Sample.config "headscale" None) "zone-1" [])).
  - vm_compute. reflexivity.
  - vm_compute. reflexivity.
Defined.

(** A device whose address lies outside the mesh range (a mesh server
  configured with its own prefix) has a desired record; the zone record
  that matches it is in the suffix, fails the mesh-address predicate,
  and passes the cleanup without any report. *)
Lemma cleanup_non_mesh_current_unreported :
  let cfg := Sample.config "headscale" None in
  let desired := build_desired (Sample.affix "" "") cfg
                   [mkDevice "nas" "192.168.1.5"] in
  let r := mkZoneRecord "r3" "nas.example.com" "192.168.1.5" "A" in
  endswith (lower (name r)) (expected_ending cfg) = true
  /\ isTailscaleIP Sample.env (content r) = false
  /\ cleanup_phase Sample.env cfg "zone-1" desired [r] (Sample.world [r] [])
     = (Val tt, Sample.world [r] [], []).
Proof. vm_compute. repeat split. Qed.


(** ** The creation phase *)

Section CreationFacts.
Variable W : Type.
Variable E : Env W.
Variable cfg : Config.
Variable cf_ZoneId : string.
Variable cf_records_current : list ZoneRecord.

Lemma up_to_date_spec (f a : string) :
  up_to_date cf_records_current f a = true
  <-> exists r, In r cf_records_current /\ lower (name r) = f /\ content r = a.
Proof.
  unfold up_to_date. rewrite existsb_exists.
  split; intros (r & Hr & H); exists r; (split; [exact Hr|]).
  - apply andb_true_iff in H as [H1 H2].
    apply String.eqb_eq in H1, H2. now split.
  - destruct H as [-> ->]. now rewrite !String.eqb_refl.
Qed.

(** The four ways through the body of the creation loop. *)
Lemma creation_step_cases (item : string * DesiredRecord) (w : W) :
  let d := snd item in
  let run := creation_step E cfg cf_ZoneId cf_records_current item w in
  (up_to_date cf_records_current (fqdn d) (ts_address d) = true
   /\ run = (Val tt, w, [Report UP_TO_DATE (fqdn d) (ts_address d)]))
  \/ (up_to_date cf_records_current (fqdn d) (ts_address d) = false
      /\ ip_address E (ts_address d) = None
      /\ run = (Exn, w, []))
  \/ (up_to_date cf_records_current (fqdn d) (ts_address d) = false
      /\ isValidDNSRecord E (original_hostname d) = true
      /\ exists v, ip_address E (ts_address d) = Some v
         /\ run = (fst (createDNSRecord E (create_args cfg cf_ZoneId d v) w),
                   snd (createDNSRecord E (create_args cfg cf_ZoneId d v) w),
                   [Report ADDING (fqdn d) (ts_address d);
                    CallCreate (create_args cfg cf_ZoneId d v)]))
  \/ (up_to_date cf_records_current (fqdn d) (ts_address d) = false
      /\ isValidDNSRecord E (original_hostname d) = false
      /\ ip_address E (ts_address d) <> None
      /\ run = (Val tt, w,
                [Report SKIPPING_INVALID_HOSTNAME (fqdn d) (ts_address d)])).
Proof.
  intros d run. subst d run. unfold creation_step.
  destruct (up_to_date _ _ _); [now left|]. right.
  destruct (ip_address E _) as [v|]; [right | now left].
  destruct (isValidDNSRecord E _); [left | right].
  - repeat split. exists v. split; [reflexivity|].
    unfold bind, emit, call.
    destruct (createDNSRecord E _ w) as [[|] w']; reflexivity.
  - repeat split. discriminate.
Qed.

(** Every create call of the creation loop is the call of line 82 for an
  item that is not up to date and whose source hostname is valid. *)
Lemma creation_create_origin (desired : DesiredSet) (w : W) (a : CreateCall) :
  In a (creates (events
          (creation_phase E cfg cf_ZoneId cf_records_current desired w))) ->
  exists k d v, In (k, d) desired
    /\ a = create_args cfg cf_ZoneId d v
    /\ ip_address E (ts_address d) = Some v
    /\ isValidDNSRecord E (original_hostname d) = true
    /\ up_to_date cf_records_current (fqdn d) (ts_address d) = false.
Proof.
  intros H. apply in_creates in H.
  apply for_each_event_origin in H as ([k d] & w' & Hin & He).
  exists k, d.
  destruct (creation_step_cases (k, d) w')
    as [[_ Hrun]|[(_ & _ & Hrun)|[(Hu & Hv & v & Hip & Hrun)|(_ & _ & _ & Hrun)]]];
    cbv zeta in Hrun; cbn [snd] in *; rewrite Hrun in He;
    cbn [events snd] in He.
  - destruct He as [He|[]]. discriminate.
  - destruct He.
  - destruct He as [He|[He|[]]]; [discriminate|].
    injection He as <-. exists v. auto.
  - destruct He as [He|[]]. discriminate.
Qed.

(** The reports and create calls of a creation loop that runs to its
  end, item by item. *)
Lemma creation_loop_complete (items : list (string * DesiredRecord)) (w : W) :
  let run := for_each (creation_step E cfg cf_ZoneId cf_records_current)
                      items w in
  outcome run = Val tt ->
  reports (events run)
  = map (fun d =>
           (if up_to_date cf_records_current (fqdn d) (ts_address d)
            then UP_TO_DATE
            else if isValidDNSRecord E (original_hostname d) then ADDING
                 else SKIPPING_INVALID_HOSTNAME,
            fqdn d, ts_address d))
        (map snd items)
  /\ creates (events run)
     = flat_map (fun d =>
           if up_to_date cf_records_current (fqdn d) (ts_address d) then []
           else if isValidDNSRecord E (original_hostname d) then
                  match ip_address E (ts_address d) with
                  | Some v => [create_args cfg cf_ZoneId d v]
                  | None => []
                  end
                else [])
        (map snd items).
Proof.
  cbv zeta. revert w. induction items as [|[k d] items IH]; intros w.
  - intros _. split; reflexivity.
  - cbn [for_each map flat_map]. rewrite outcome_bind, events_bind.
    destruct (creation_step_cases (k, d) w)
      as [[Hu Hrun]|[(Hu & _ & Hrun)|[(Hu & Hv & v & Hip & Hrun)|(Hu & Hv & _ & Hrun)]]];
      cbv zeta in Hrun; cbn [snd] in *; rewrite Hrun;
      cbn [outcome world_after events fst snd]; rewrite Hu; try rewrite Hv;
      try rewrite Hip.
    + intros H. destruct (IH _ H) as [IH1 IH2].
      rewrite reports_app, creates_app, IH1, IH2. split; reflexivity.
    + discriminate.
    + destruct (createDNSRecord E _ w) as [[[]|] w']; cbn [fst snd];
        [|discriminate].
      intros H. destruct (IH _ H) as [IH1 IH2].
      rewrite reports_app, creates_app, IH1, IH2. split; reflexivity.
    + intros H. destruct (IH _ H) as [IH1 IH2].
      rewrite reports_app, creates_app, IH1, IH2. split; reflexivity.
Qed.

(** Whether the loop runs to its end or is cut short by an exception,
  its reports are those of the first items, one each. *)
Lemma creation_loop_prefix (items : list (string * DesiredRecord)) (w : W) :
  exists n,
    reports (events (for_each (creation_step E cfg cf_ZoneId
                                 cf_records_current) items w))
    = firstn n
        (map (fun d =>
                (if up_to_date cf_records_current (fqdn d) (ts_address d)
                 then UP_TO_DATE
                 else if isValidDNSRecord E (original_hostname d) then ADDING
                      else SKIPPING_INVALID_HOSTNAME,
                 fqdn d, ts_address d))
             (map snd items)).
Proof.
  revert w. induction items as [|[k d] items IH]; intros w.
  - exists 0. reflexivity.
  - cbn [for_each map]. rewrite events_bind.
    destruct (creation_step_cases (k, d) w)
      as [[Hu Hrun]|[(Hu & _ & Hrun)|[(Hu & Hv & v & Hip & Hrun)|(Hu & Hv & _ & Hrun)]]];
      cbv zeta in Hrun; cbn [snd] in *; rewrite Hrun;
      cbn [outcome world_after events fst snd]; rewrite Hu; try rewrite Hv.
    + destruct (IH w) as [n Hn]. exists (S n).
      rewrite reports_app, Hn. reflexivity.
    + exists 0. reflexivity.
    + destruct (createDNSRecord E _ w) as [[[]|] w']; cbn [fst snd].
      * destruct (IH w') as [n Hn]. exists (S n).
        rewrite reports_app, Hn. reflexivity.
      * exists 1. reflexivity.
    + destruct (IH w) as [n Hn]. exists (S n).
      rewrite reports_app, Hn. reflexivity.
Qed.

(** When no create call raises and every item that is not matched has a
  readable address, the creation loop runs to its end. *)
Lemma creation_loop_total (items : list (string * DesiredRecord)) (w : W) :
  (forall a w', fst (createDNSRecord E a w') = Val tt) ->
  (forall d, In d (map snd items) ->
     up_to_date cf_records_current (fqdn d) (ts_address d) = false ->
     ip_address E (ts_address d) <> None) ->
  outcome (for_each (creation_step E cfg cf_ZoneId cf_records_current)
                    items w) = Val tt.
Proof.
  intros Hcreate. revert w.
  induction items as [|[k d] items IH]; intros w Hread; [reflexivity|].
  cbn [for_each]. rewrite outcome_bind.
  assert (Htail : forall d', In d' (map snd items) ->
            up_to_date cf_records_current (fqdn d') (ts_address d') = false ->
            ip_address E (ts_address d') <> None)
    by (intros d' Hd'; apply Hread; now right).
  destruct (creation_step_cases (k, d) w)
    as [[_ Hrun]|[(Hu & Hip & _)|[(_ & _ & v & _ & Hrun)|(_ & _ & _ & Hrun)]]];
    try (cbv zeta in Hrun; rewrite Hrun); cbn [snd outcome world_after fst] in *.
  - now apply IH.
  - exfalso. apply (Hread d); [now left | exact Hu | exact Hip].
  - rewrite Hcreate. now apply IH.
  - now apply IH.
Qed.

(** The loop stops at the first item that is not matched and whose
  address cannot be read: the items before it are reported, it and the
  items after it are not. *)
Lemma creation_loop_cut (pre post : list (string * DesiredRecord))
  (k : string) (d : DesiredRecord) (w : W) :
  (forall a w', fst (createDNSRecord E a w') = Val tt) ->
  (forall d', In d' (map snd pre) ->
     up_to_date cf_records_current (fqdn d') (ts_address d') = false ->
     ip_address E (ts_address d') <> None) ->
  up_to_date cf_records_current (fqdn d) (ts_address d) = false ->
  ip_address E (ts_address d) = None ->
  let run := for_each (creation_step E cfg cf_ZoneId cf_records_current)
                      (pre ++ (k, d) :: post) w in
  outcome run = Exn
  /\ reports (events run)
     = map (fun d =>
              (if up_to_date cf_records_current (fqdn d) (ts_address d)
               then UP_TO_DATE
               else if isValidDNSRecord E (original_hostname d) then ADDING
                    else SKIPPING_INVALID_HOSTNAME,
               fqdn d, ts_address d))
           (map snd pre).
Proof.
  intros Hcreate Hread Hu Hip run. subst run.
  pose proof (creation_loop_total pre w Hcreate Hread) as Hpre.
  destruct (for_each_app_run (creation_step E cfg cf_ZoneId cf_records_current)
              pre ((k, d) :: post) w Hpre) as (Ho & _ & He).
  rewrite Ho, He. clear Ho He.
  destruct (creation_loop_complete pre w Hpre) as [Hrep _].
  cbn [for_each]. rewrite outcome_bind, events_bind.
  destruct (creation_step_cases (k, d)
              (world_after (for_each (creation_step E cfg cf_ZoneId
                                        cf_records_current) pre w)))
    as [[Hu' _]|[(_ & _ & Hrun)|[(_ & _ & v & Hip' & _)|(_ & _ & Hip' & _)]]];
    cbn [snd] in *; try congruence.
  cbv zeta in Hrun. rewrite Hrun. cbn [outcome events fst snd].
  rewrite List.app_nil_r. split; [reflexivity | exact Hrep].
Qed.

End CreationFacts.

(** C5 (amended).  When the creation loop reaches a desired record, the
  record is reported UP-TO-DATE, and no create is issued for it, exactly
  when the snapshot holds a record whose lower-cased name equals its
  fqdn and whose content equals its address as a string; both must hold
  of the same record.  When no create call raises and every record that
  is not matched has an address that [ipaddress] reads, the phase runs
  to its end and every desired record gets exactly one report, in
  order: UP-TO-DATE when matched, else ADDING when its source hostname
  is valid, else SKIPPING-INVALID-HOSTNAME.  At the first record that is
  not matched and whose address cannot be read the phase ends by the
  exception: the records before it have their report, it and the records
  after it have none. *)
Theorem creation_classification (W : Type) (E : Env W) (cfg : Config)
  (cf_ZoneId : string) (cf_records_current : list ZoneRecord) :
  (forall item w,
     let d := snd item in
     let run := creation_step E cfg cf_ZoneId cf_records_current item w in
     ((exists r, In r cf_records_current
                 /\ lower (name r) = fqdn d /\ content r = ts_address d)
      <-> In (UP_TO_DATE, fqdn d, ts_address d) (reports (events run)))
     /\ ((exists r, In r cf_records_current
                    /\ lower (name r) = fqdn d /\ content r = ts_address d)
         -> run = (Val tt, w, [Report UP_TO_DATE (fqdn d) (ts_address d)])))
  /\ (forall desired w,
        (forall a w', fst (createDNSRecord E a w') = Val tt) ->
        (forall d, In d (PyDict.values desired) ->
           up_to_date cf_records_current (fqdn d) (ts_address d) = false ->
           ip_address E (ts_address d) <> None) ->
        outcome (creation_phase E cfg cf_ZoneId cf_records_current desired w)
        = Val tt)
  /\ (forall desired w,
        let run :=
          creation_phase E cfg cf_ZoneId cf_records_current desired w in
        outcome run = Val tt ->
        reports (events run)
        = map (fun d =>
                 (if up_to_date cf_records_current (fqdn d) (ts_address d)
                  then UP_TO_DATE
                  else if isValidDNSRecord E (original_hostname d) then ADDING
                       else SKIPPING_INVALID_HOSTNAME,
                  fqdn d, ts_address d))
              (PyDict.values desired)
        /\ creates (events run)
           = flat_map (fun d =>
               if up_to_date cf_records_current (fqdn d) (ts_address d)
               then []
               else if isValidDNSRecord E (original_hostname d) then
                      match ip_address E (ts_address d) with
                      | Some v => [create_args cfg cf_ZoneId d v]
                      | None => []
                      end
                    else [])
             (PyDict.values desired))
  /\ (forall pre k d post w,
        (forall a w', fst (createDNSRecord E a w') = Val tt) ->
        (forall d', In d' (PyDict.values pre) ->
           up_to_date cf_records_current (fqdn d') (ts_address d') = false ->
           ip_address E (ts_address d') <> None) ->
        up_to_date cf_records_current (fqdn d) (ts_address d) = false ->
        ip_address E (ts_address d) = None ->
        let run := creation_phase E cfg cf_ZoneId cf_records_current
                     (pre ++ (k, d) :: post)%list w in
        outcome run = Exn
        /\ reports (events run)
           = map (fun d =>
                    (if up_to_date cf_records_current (fqdn d) (ts_address d)
                     then UP_TO_DATE
                     else if isValidDNSRecord E (original_hostname d)
                          then ADDING
                          else SKIPPING_INVALID_HOSTNAME,
                     fqdn d, ts_address d))
                 (PyDict.values pre))
  /\ (forall f a,
        up_to_date cf_records_current f a = true
        <-> exists r, In r cf_records_current
                      /\ lower (name r) = f /\ content r = a).
Proof.
  split; [|split; [|split; [|split]]].
  - intros item w d run. subst d run.
    rewrite <- up_to_date_spec.
    destruct (creation_step_cases E cfg cf_ZoneId cf_records_current item w)
      as [[Hu Hrun]|[(Hu & _ & Hrun)|[(Hu & _ & v & _ & Hrun)|(Hu & _ & _ & Hrun)]]];
      cbv zeta in Hrun; rewrite Hrun, Hu; cbn [events snd reports].
    + split; [|reflexivity]. split; [intros _; now left | reflexivity].
    + split; [|discriminate]. split; [discriminate | intros []].
    + split; [|discriminate].
      split; [discriminate | intros [H|[]]; discriminate].
    + split; [|discriminate].
      split; [discriminate | intros [H|[]]; discriminate].
  - intros desired w Hcreate Hread.
    apply (creation_loop_total E cfg cf_ZoneId cf_records_current
             (PyDict.items desired) w Hcreate Hread).
  - intros desired w run Hout.
    apply (creation_loop_complete E cfg cf_ZoneId cf_records_current
             (PyDict.items desired) w Hout).
  - intros pre k d post w Hcreate Hread Hu Hip.
    apply (creation_loop_cut E cfg cf_ZoneId cf_records_current pre post k d
             w Hcreate Hread Hu Hip).
  - apply up_to_date_spec.
Qed.

Lemma creation_classification_witness :
  reports (events
    (creation_phase Sample.env (Sample.config "headscale" None) "zone-1"
       [mkZoneRecord "r1" "Laptop.Example.com" "100.64.0.1" "A"]
       [("laptop.example.com_100.64.0.1",
         mkDesired "laptop.example.com" "100.64.0.1" "laptop");
        ("gw.example.com_100.64.0.9/32",
         mkDesired "gw.example.com" "100.64.0.9/32" "gw");
        ("desk.example.com_100.64.0.2",
         mkDesired "desk.example.com" "100.64.0.2" "desk")]
       (Sample.world [] [])))
  = [(UP_TO_DATE, "laptop.example.com", "100.64.0.1")].
Proof.
  pose proof (creation_classification Sample.env
                (Sample.config "headscale" None) "zone-1"
                [mkZoneRecord "r1" "Laptop.Example.com" "100.64.0.1" "A"])
    as (_ & _ & _ & Hcut & _).
  refine (proj2 (Hcut [("laptop.example.com_100.64.0.1",
                        mkDesired "laptop.example.com" "100.64.0.1" "laptop")]
                   "gw.example.com_100.64.0.9/32"
                   (mkDesired "gw.example.com" "100.64.0.9/32" "gw")
                   [("desk.example.com_100.64.0.2",
                     mkDesired "desk.example.com" "100.64.0.2" "desk")]
                   (Sample.world [] []) _ _ _ _)).
  - intros a w'. reflexivity.
  - intros d' [<-|[]] Hu'. vm_compute in Hu'. discriminate.
  - vm_compute. reflexivity.
  - vm_compute. reflexivity.
Defined.

(** An address that [ipaddress] does not read (here with a prefix
  length) ends the loop before anything is reported: the record of the
  laptop, matched by the zone, is never reported UP-TO-DATE.  A create
  call that raises ends the loop as well: the record after it gets no
  report. *)
Lemma creation_cut_short_unclassified :
  let cfg := Sample.config "headscale" None in
  let snapshot := [mkZoneRecord "r1" "laptop.example.com" "100.64.0.1" "A"] in
  creation_phase Sample.env cfg "zone-1" snapshot
    (build_desired (Sample.affix "" "") cfg
       [mkDevice "gw" "100.64.0.9/32"; mkDevice "laptop" "100.64.0.1"])
    (Sample.world snapshot [])
  = (Exn, Sample.world snapshot [], [])
  /\ creation_phase (Sample.env_failing Sample.mesh_ipv4 "100.64.0.5") cfg
       "zone-1" snapshot
       (build_desired (Sample.affix "" "") cfg
          [mkDevice "desk" "100.64.0.5"; mkDevice "laptop" "100.64.0.1"])
       (Sample.world snapshot [])
     = (Exn, Sample.world snapshot [],
        [Report ADDING "desk.example.com" "100.64.0.5";
         CallCreate (mkCreate "token" "example.com" "desk" "A" "100.64.0.5"
                       None "zone-1")]).
Proof. vm_compute. split; reflexivity. Qed.

(** A record with the right name and another address, or the right
  address and another name, does not make the desired record up to
  date. *)
Example creation_needs_both :
  reports (events
    (creation_phase Sample.env (Sample.config "headscale" None) "zone-1"
       [mkZoneRecord "r1" "laptop.example.com" "100.64.0.2" "A";
        mkZoneRecord "r2" "desk.example.com" "100.64.0.1" "A"]
       [("laptop.example.com_100.64.0.1",
         mkDesired "laptop.example.com" "100.64.0.1" "laptop")]
       (Sample.world [] [])))
  = [(ADDING, "laptop.example.com", "100.64.0.1")].
Proof. vm_compute. reflexivity. Qed.





(** ** The controller *)

(** C9.  With a mode other than "tailscale" and "headscale" the cycle
  ends before the mesh inventory is fetched: it issues no create call
  and no delete call, whatever the collaborators answer. *)
Theorem invalid_mode_no_mutation (W : Type) (E : Env W) (cfg : Config)
  (w : W) :
  mode cfg <> "tailscale" -> mode cfg <> "headscale" ->
  let run := perform_sync_cycle E cfg w in
  events run = []
  /\ creates (events run) = [] /\ deletes (events run) = []
  /\ In (outcome run) [InvalidMode; NoZoneId; NoZoneRecords; Raised].
Proof.
  intros Ht Hh run. subst run.
  apply String.eqb_neq in Ht, Hh.
  unfold perform_sync_cycle, sync_body, bind, call, ret.
  destruct (getZoneId E _ _ w) as [[[zid|]|] w1];
    cbn [events outcome fst snd creates deletes In];
    [|repeat split; tauto..].
  destruct (truthy zid); cbn [negb events outcome fst snd creates deletes In];
    [|repeat split; tauto].
  destruct (getZoneRecords E _ _ _ w1) as [[[cur|]|] w2];
    cbn [events outcome fst snd creates deletes In app];
    [|repeat split; tauto..].
  rewrite Ht, Hh. cbn [events outcome fst snd creates deletes In app].
  repeat split; tauto.
Qed.

Lemma invalid_mode_no_mutation_witness :
  events (perform_sync_cycle Sample.env (Sample.config "wireguard" None)
            (Sample.world
               [mkZoneRecord "r9" "old.example.com" "100.64.0.9" "A"]
               [mkDevice "laptop" "100.64.0.1"])) = [].
Proof.
  apply (invalid_mode_no_mutation Sample.env
           (Sample.config "wireguard" None)).
  - discriminate.
  - discriminate.
Defined.

(** ** Cycles against the provider that applies every mutation *)

Section ProviderFacts.
Variables valid mesh : string -> bool.
Variable alter : string -> string.
Variable ipa : string -> option ip_version.
Variable cfg : Config.
Variable cf_ZoneId : string.

#[local] Abbreviation E := (provider valid mesh alter ipa).

Lemma fresh_id_longer (z : list ZoneRecord) (r : ZoneRecord) :
  In r z -> String.length (id r) < String.length (fresh_id z).
Proof.
  unfold fresh_id. cbn [String.length].
  induction z as [|x z IH]; intros H; [destruct H|].
  cbn [fold_right]. rewrite length_sapp.
  destruct H as [->|H]; [lia|]. specialize (IH H). lia.
Qed.

Lemma fresh_id_fresh (z : list ZoneRecord) :
  ~ In (fresh_id z) (map id z).
Proof.
  intros H. apply in_map_iff in H as (r & Hid & Hr).
  apply fresh_id_longer in Hr. rewrite Hid in Hr. lia.
Qed.

(** The record created for a device's desired record carries, lower-cased,
  the fqdn of that record, when the transform returns lower-case text. *)
Lemma created_name_lower (dev : MeshDevice) (v : ip_version) :
  lower (hostname_part alter dev) = hostname_part alter dev ->
  lower (created_name alter
           (create_args cfg cf_ZoneId (record_of alter cfg dev) v))
  = tsfqdn_of alter cfg dev.
Proof.
  intros Hl. unfold created_name, create_args, tsfqdn_of, sub_part.
  cbn [c_name c_subdomain c_domain record_of original_hostname].
  fold (hostname_part alter dev). rewrite lower_sapp, Hl. f_equal.
  destruct (cf_sub cfg) as [s|]; [destruct (truthy s)|];
    rewrite ?lower_sapp; reflexivity.
Qed.

(** What a creation loop that runs to its end leaves in the zone. *)
Lemma provider_creation_loop (snapshot : list ZoneRecord)
  (items : list (string * DesiredRecord)) (w : World) :
  outcome (for_each (creation_step E cfg cf_ZoneId snapshot) items w)
  = Val tt ->
  exists news,
    world_after (for_each (creation_step E cfg cf_ZoneId snapshot) items w)
    = {| zone := (zone w ++ news)%list;
         inventory := inventory w;
         zone_ident := zone_ident w |}
    /\ (forall n, In n news ->
          exists k d v, In (k, d) items
            /\ up_to_date snapshot (fqdn d) (ts_address d) = false
            /\ valid (original_hostname d) = true
            /\ name n = created_name alter (create_args cfg cf_ZoneId d v)
            /\ content n = ts_address d)
    /\ (forall k d, In (k, d) items ->
          up_to_date snapshot (fqdn d) (ts_address d) = false ->
          ipa (ts_address d) <> None
          /\ (valid (original_hostname d) = true ->
              exists n v, In n news
                /\ name n = created_name alter (create_args cfg cf_ZoneId d v)
                /\ content n = ts_address d))
    /\ (NoDup (map id (zone w)) -> NoDup (map id (zone w ++ news))).
Proof.
  revert w. induction items as [|[k d] items IH]; intros w.
  - intros _. exists []. cbn [for_each ret world_after fst snd].
    rewrite List.app_nil_r. destruct w.
    split; [reflexivity|]. split; [intros n []|].
    split; [intros k d [] | tauto].
  - cbn [for_each]. rewrite outcome_bind, world_bind.
    destruct (creation_step_cases E cfg cf_ZoneId snapshot (k, d) w)
      as [[Hu Hrun]|[(Hu & _ & Hrun)|[(Hu & Hv & v & Hip & Hrun)|(Hu & Hv & Hip & Hrun)]]];
      cbv zeta in Hrun; cbn [snd provider isValidDNSRecord ip_address
                             createDNSRecord fst] in *;
      rewrite Hrun; cbn [outcome world_after fst snd].
    + intros H. destruct (IH _ H) as (news & Hw & Hnew & Hitems & Hnd).
      exists news. split; [exact Hw|]. split; [|split; [|exact Hnd]].
      * intros n Hn. destruct (Hnew n Hn) as (k' & d' & v' & Hin & Hrest).
        exists k', d', v'. split; [now right | exact Hrest].
      * intros k' d' [Heq|Hin] Hu'; [|now apply (Hitems k')].
        injection Heq as <- <-. congruence.
    + discriminate.
    + intros H. destruct (IH _ H) as (news & Hw & Hnew & Hitems & Hnd).
      cbn [zone inventory zone_ident] in *. unfold zone_create in *.
      set (n0 := {| id := fresh_id (zone w);
                    name := created_name alter (create_args cfg cf_ZoneId d v);
                    content := c_content (create_args cfg cf_ZoneId d v);
                    rtype := c_type (create_args cfg cf_ZoneId d v) |}) in *.
      exists (n0 :: news).
      replace (zone w ++ n0 :: news)%list
        with ((zone w ++ [n0]) ++ news)%list
        by (rewrite <- List.app_assoc; reflexivity).
      split; [exact Hw|]. split; [|split].
      * intros n [<-|Hn].
        -- exists k, d, v. repeat split; auto. now left.
        -- destruct (Hnew n Hn) as (k' & d' & v' & Hin & Hrest).
           exists k', d', v'. split; [now right | exact Hrest].
      * intros k' d' [Heq|Hin] Hu'.
        -- injection Heq as <- <-. split; [congruence|].
           intros _. exists n0, v. repeat split. now left.
        -- destruct (Hitems k' d' Hin Hu') as [Hip' Hex].
           split; [exact Hip'|]. intros Hv'.
           destruct (Hex Hv') as (n & v' & Hn & Hrest).
           exists n, v'. split; [now right | exact Hrest].
      * intros Hnd0. apply Hnd. rewrite map_app. cbn [map].
        apply NoDup_app; [exact Hnd0 | constructor; [tauto | constructor] |].
        intros x Hx [<-|[]]. now apply (fresh_id_fresh (zone w)).
    + intros H. destruct (IH _ H) as (news & Hw & Hnew & Hitems & Hnd).
      exists news. split; [exact Hw|]. split; [|split; [|exact Hnd]].
      * intros n Hn. destruct (Hnew n Hn) as (k' & d' & v' & Hin & Hrest).
        exists k', d', v'. split; [now right | exact Hrest].
      * intros k' d' [Heq|Hin] Hu'; [|now apply (Hitems k')].
        injection Heq as <- <-. split; [exact Hip | congruence].
Qed.

End ProviderFacts.

(** A creation loop over items that are all matched or invalid: one
  report per item, no call, the world untouched. *)
Lemma creation_loop_settled (W : Type) (E : Env W) (cfg : Config)
  (cf_ZoneId : string) (snapshot : list ZoneRecord)
  (items : list (string * DesiredRecord)) (w : W) :
  (forall k d, In (k, d) items ->
     up_to_date snapshot (fqdn d) (ts_address d) = true
     \/ (ip_address E (ts_address d) <> None
         /\ isValidDNSRecord E (original_hostname d) = false)) ->
  for_each (creation_step E cfg cf_ZoneId snapshot) items w
  = (Val tt, w,
     map (fun d =>
            Report (if up_to_date snapshot (fqdn d) (ts_address d)
                    then UP_TO_DATE else SKIPPING_INVALID_HOSTNAME)
                   (fqdn d) (ts_address d))
         (map snd items)).
Proof.
  induction items as [|[k d] items IH]; intros H; [reflexivity|].
  cbn [for_each map snd]. unfold bind.
  specialize (IH (fun k' d' Hin => H k' d' (or_intror Hin))).
  destruct (creation_step_cases E cfg cf_ZoneId snapshot (k, d) w)
    as [[Hu Hrun]|[(Hu & Hip & _)|[(Hu & Hv & _)|(Hu & _ & _ & Hrun)]]];
    try (cbv zeta in Hrun); cbn [snd] in *.
  - rewrite Hrun, IH, Hu. reflexivity.
  - destruct (H k d (or_introl eq_refl)) as [?|[? _]]; congruence.
  - destruct (H k d (or_introl eq_refl)) as [?|[_ ?]]; congruence.
  - rewrite Hrun, IH, Hu. reflexivity.
Qed.

Lemma creates_map_report {A} (c : A -> classification) (f a : A -> string)
  (l : list A) :
  creates (map (fun x => Report (c x) (f x) (a x)) l) = [].
Proof. induction l as [|x l IH]; [reflexivity | exact IH]. Qed.

Section ProviderRuns.
Variables valid mesh : string -> bool.
Variable alter : string -> string.
Variable ipa : string -> option ip_version.
Variable cfg : Config.
Variable cf_ZoneId : string.
Variable ts_records : list MeshDevice.

#[local] Abbreviation E := (provider valid mesh alter ipa).
#[local] Abbreviation desired := (build_desired alter cfg ts_records).

Hypothesis transform_lower :
  forall dev, In dev ts_records ->
    lower (hostname_part alter dev) = hostname_part alter dev.

Lemma desired_item_shape (k : string) (d : DesiredRecord) :
  In (k, d) desired ->
  exists dev, In dev ts_records
    /\ k = fqdn d ++ "_" ++ ts_address d /\ d = record_of alter cfg dev.
Proof.
  intros H. apply build_from_items in H as [[]|(dev & Hdev & -> & ->)].
  exists dev. repeat split. exact Hdev.
Qed.

(** Two items of the desired set with the same fqdn and address are the
  same item. *)
Lemma desired_item_unique (k1 k2 : string) (d1 d2 : DesiredRecord) :
  In (k1, d1) desired -> In (k2, d2) desired ->
  fqdn d1 = fqdn d2 -> ts_address d1 = ts_address d2 -> d1 = d2.
Proof.
  intros H1 H2 Hf Ha.
  destruct (desired_item_shape _ _ H1) as (_ & _ & Hk1 & _).
  destruct (desired_item_shape _ _ H2) as (_ & _ & Hk2 & _).
  assert (k1 = k2) by congruence. subst k2.
  pose proof (build_desired_NoDup alter cfg ts_records) as Hnd.
  apply (NoDup_keys_get _ _ _ Hnd) in H1, H2. congruence.
Qed.

(** After a creation phase that ran to its end, a desired record is
  matched by the zone exactly when it was matched before or its source
  hostname is valid. *)
Lemma provider_zone_after_creation (snapshot : list ZoneRecord) (w : World) :
  let run := creation_phase E cfg cf_ZoneId snapshot desired w in
  outcome run = Val tt ->
  exists news,
    world_after run = {| zone := (zone w ++ news)%list;
                         inventory := inventory w;
                         zone_ident := zone_ident w |}
    /\ (NoDup (map id (zone w)) -> NoDup (map id (zone w ++ news)))
    /\ (forall n, In n news ->
          exists k d, In (k, d) desired
            /\ up_to_date snapshot (fqdn d) (ts_address d) = false
            /\ valid (original_hostname d) = true
            /\ lower (name n) = fqdn d /\ content n = ts_address d)
    /\ (forall k d, In (k, d) desired ->
          up_to_date snapshot (fqdn d) (ts_address d) = false ->
          ipa (ts_address d) <> None
          /\ up_to_date news (fqdn d) (ts_address d)
             = valid (original_hostname d)).
Proof.
  intros run Hout. subst run. unfold creation_phase, PyDict.items in *.
  destruct (provider_creation_loop valid mesh alter ipa cfg cf_ZoneId
              snapshot desired w Hout)
    as (news & Hw & Hnew & Hitems & Hnd).
  assert (Hnew' : forall n, In n news ->
          exists k d, In (k, d) desired
            /\ up_to_date snapshot (fqdn d) (ts_address d) = false
            /\ valid (original_hostname d) = true
            /\ lower (name n) = fqdn d /\ content n = ts_address d).
  { intros n Hn. destruct (Hnew n Hn) as (k & d & v & Hin & Hu & Hv & Hname & Hc).
    exists k, d. repeat split; try assumption.
    destruct (desired_item_shape _ _ Hin) as (dev & Hdev & _ & ->).
    rewrite Hname. apply created_name_lower. now apply transform_lower. }
  exists news. split; [exact Hw|]. split; [exact Hnd|]. split; [exact Hnew'|].
  intros k d Hin Hu. destruct (Hitems k d Hin Hu) as [Hip Hex].
  split; [exact Hip|].
  destruct (valid (original_hostname d)) eqn:Hv.
  - destruct (Hex eq_refl) as (n & v & Hn & Hname & Hc).
    apply up_to_date_spec. exists n. split; [exact Hn|]. split; [|exact Hc].
    destruct (desired_item_shape _ _ Hin) as (dev & Hdev & _ & ->).
    rewrite Hname. apply created_name_lower. now apply transform_lower.
  - destruct (up_to_date news (fqdn d) (ts_address d)) eqn:Hup; [|reflexivity].
    apply up_to_date_spec in Hup as (n & Hn & Hf & Hc).
    destruct (Hnew' n Hn) as (k' & d' & Hin' & _ & Hv' & Hf' & Hc').
    assert (d' = d) by (eapply desired_item_unique; eauto; congruence).
    congruence.
Qed.

End ProviderRuns.





Section ProviderCycle.
Variables valid mesh : string -> bool.
Variable alter : string -> string.
Variable ipa : string -> option ip_version.
Variable cfg : Config.

#[local] Abbreviation E := (provider valid mesh alter ipa).

(** What a cleanup loop leaves in the zone: the records whose id is not
  the id of a stale record of the snapshot. *)
Lemma provider_cleanup_loop (cf_ZoneId : string) (desired : DesiredSet)
  (snapshot : list ZoneRecord) (w : World) :
  let run := for_each (cleanup_step E cfg cf_ZoneId desired) snapshot w in
  outcome run = Val tt
  /\ forall r,
       In r (zone (world_after run))
       <-> In r (zone w)
           /\ forall s, In s snapshot ->
                PyDict.mem (lower (name s) ++ "_" ++ content s) desired = false
                -> endswith (lower (name s)) (expected_ending cfg) = true
                -> mesh (content s) = true
                -> id r <> id s.
Proof.
  cbv zeta. revert w. induction snapshot as [|s snapshot IH]; intros w.
  - cbn [for_each ret outcome world_after fst snd].
    split; [reflexivity|]. intros r. split; [|tauto].
    intros H. split; [exact H | intros s []].
  - cbn [for_each]. rewrite outcome_bind, world_bind.
    destruct (cleanup_step_cases E cfg cf_ZoneId desired s w)
      as [[Hm Hrun]|[(Hm & Hs & Hrun)|[(Hm & Hs & Hi & Hrun)|(Hm & Hs & Hi & Hrun)]]];
      cbv zeta in Hrun;
      cbn [provider isTailscaleIP deleteDNSRecord fst snd] in *;
      rewrite Hrun; cbn [outcome world_after fst snd].
    + destruct (IH w) as [Hout Hzone].
      split; [exact Hout|]. intros r. rewrite Hzone. clear Hzone.
      split; intros [Hr Hall]; (split; [exact Hr|]).
      * intros s' [<-|Hs'] ? ? ?; [congruence | now apply Hall].
      * intros s' Hs'. apply Hall. now right.
    + destruct (IH w) as [Hout Hzone].
      split; [exact Hout|]. intros r. rewrite Hzone. clear Hzone.
      split; intros [Hr Hall]; (split; [exact Hr|]).
      * intros s' [<-|Hs'] ? ? ?; [congruence | now apply Hall].
      * intros s' Hs'. apply Hall. now right.
    + destruct (IH w) as [Hout Hzone].
      split; [exact Hout|]. intros r. rewrite Hzone. clear Hzone.
      split; intros [Hr Hall]; (split; [exact Hr|]).
      * intros s' [<-|Hs'] ? ? ?; [congruence | now apply Hall].
      * intros s' Hs'. apply Hall. now right.
    + destruct (IH {| zone := zone_delete (delete_args cfg cf_ZoneId s) (zone w);
                      inventory := inventory w;
                      zone_ident := zone_ident w |}) as [Hout Hzone].
      split; [exact Hout|]. intros r. rewrite Hzone. clear Hzone.
      cbn [zone]. unfold zone_delete, delete_args. cbn [d_id].
      rewrite filter_In, negb_true_iff, String.eqb_neq.
      split.
      * intros [[Hr Hne] Hall]. split; [exact Hr|].
        intros s' [<-|Hs'] ? ? ?; [exact Hne | now apply Hall].
      * intros [Hr Hall]. split; [split; [exact Hr|]|].
        -- apply Hall; auto. now left.
        -- intros s' Hs'. apply Hall. now right.
Qed.

Lemma provider_diff_and_apply (cf_ZoneId : string)
  (snapshot : list ZoneRecord) (ts_records : list MeshDevice) (w : World) :
  let desired := build_desired alter cfg ts_records in
  let first := creation_phase E cfg cf_ZoneId snapshot desired w in
  let run := diff_and_apply E cfg cf_ZoneId snapshot (Some ts_records) w in
  outcome run = Val Finished ->
  outcome first = Val tt
  /\ world_after run
     = world_after (cleanup_phase E cfg cf_ZoneId desired
                      (zone (world_after first)) (world_after first)).
Proof.
  cbv zeta. unfold diff_and_apply. cbn [provider alterHostname].
  rewrite outcome_bind, world_bind.
  destruct (outcome (creation_phase E cfg cf_ZoneId snapshot
                       (build_desired alter cfg ts_records) w))
    as [[]|]; [|discriminate].
  rewrite outcome_bind, world_bind.
  cbn [call provider getZoneRecords outcome world_after fst snd].
  rewrite outcome_bind, world_bind.
  destruct (outcome (cleanup_phase E cfg cf_ZoneId _ _ _)) as [[]|];
    [|discriminate].
  intros _. split; reflexivity.
Qed.

(** A cycle that finishes ran the creation phase on the first snapshot
  to its end and then the cleanup phase on the zone as it stood. *)
Lemma provider_cycle_shape (w : World) :
  let run := perform_sync_cycle E cfg w in
  let desired := build_desired alter cfg (inventory w) in
  let first := creation_phase E cfg (zone_ident w) (zone w) desired w in
  outcome run = Finished ->
  outcome first = Val tt
  /\ world_after run
     = world_after (cleanup_phase E cfg (zone_ident w) desired
                      (zone (world_after first)) (world_after first)).
Proof.
  cbv zeta.
  assert (Hperf : forall m : M World cycle_end,
            outcome (match m w with
                     | (Val e, w', evs) => (e, w', evs)
                     | (Exn, w', evs) => (Raised, w', evs)
                     end)
            = match outcome (m w) with Val e => e | Exn => Raised end
            /\ world_after (match m w with
                            | (Val e, w', evs) => (e, w', evs)
                            | (Exn, w', evs) => (Raised, w', evs)
                            end)
               = world_after (m w)).
  { intros m. destruct (m w) as [[[e|] w'] evs]; split; reflexivity. }
  unfold perform_sync_cycle.
  destruct (Hperf (sync_body E cfg)) as [-> ->]. clear Hperf.
  unfold sync_body. rewrite outcome_bind, world_bind.
  cbn [call provider getZoneId outcome world_after fst snd].
  destruct (truthy (zone_ident w)); cbn [negb];
    [|cbn [ret outcome fst]; discriminate].
  rewrite outcome_bind, world_bind.
  cbn [call provider getZoneRecords outcome world_after fst snd].
  destruct (mode cfg =? "tailscale");
    [|destruct (mode cfg =? "headscale");
      [|cbn [ret outcome fst]; discriminate]];
    rewrite outcome_bind, world_bind;
    cbn [call provider getTailscaleDevice getHeadscaleDevice
           outcome world_after fst snd];
    intros H; apply provider_diff_and_apply;
    destruct (outcome (diff_and_apply E cfg (zone_ident w) (zone w)
                         (Some (inventory w)) w)) as [e|];
    congruence.
Qed.

End ProviderCycle.

Lemma NoDup_map_injective {A B} (f : A -> B) (l : list A) (x y : A) :
  NoDup (map f l) -> In x l -> In y l -> f x = f y -> x = y.
Proof.
  induction l as [|z l IH]; cbn [map]; intros Hnd Hx Hy Hf; [destruct Hx|].
  inversion Hnd as [|? ? Hnotin Hnd']; subst.
  destruct Hx as [->|Hx], Hy as [->|Hy]; auto.
  - exfalso. apply Hnotin. rewrite Hf. now apply in_map.
  - exfalso. apply Hnotin. rewrite <- Hf. now apply in_map.
Qed.



(** The zone that this cycle leaves: the stale record is gone, the
  record of the device is there, the two foreign records are kept. *)
Example cycle_convergence_run :
  zone (world_after
    (perform_sync_cycle Sample.env (Sample.config "headscale" None)
       (Sample.world
          [mkZoneRecord "r9" "old.example.com" "100.64.0.9" "A";
           mkZoneRecord "r5" "printer.example.com" "203.0.113.5" "A";
           mkZoneRecord "r7" "www.example.org" "100.64.0.7" "A"]
          [mkDevice "Laptop" "100.64.0.1"])))
  = [mkZoneRecord "r5" "printer.example.com" "203.0.113.5" "A";
     mkZoneRecord "r7" "www.example.org" "100.64.0.7" "A";
     mkZoneRecord "nr9r5r7" "laptop.example.com" "100.64.0.1" "A"].
Proof. vm_compute. reflexivity. Qed.


(** Why the transform must return lower-case text: with the prefix "TS-"
  the desired fqdn keeps its capitals while zone names are compared
  lower-cased, so the record created by the cycle is not recognised by
  the cleanup of the same cycle and is deleted again. *)
Example cycle_upper_prefix_churn :
  perform_sync_cycle
    (provider Sample.rfc1123_label Sample.mesh_ipv4 (Sample.affix "TS-" "")
       Sample.ipv4_address)
    (Sample.config "headscale" None)
    (Sample.world [] [mkDevice "laptop" "100.64.0.1"])
  = (Finished,
     Sample.world [] [mkDevice "laptop" "100.64.0.1"],
     [Report ADDING "TS-laptop.example.com" "100.64.0.1";
      CallCreate (mkCreate "token" "example.com" "laptop" "A" "100.64.0.1"
                    None "zone-1");
      Report DELETING_STALE "ts-laptop.example.com" "100.64.0.1";
      CallDelete (mkDelete "token" "example.com" "n" "zone-1")]).
Proof. vm_compute. reflexivity. Qed.

(** ** The main block *)

Example int_samples :
  map SampleInt.int
    ["15"; " 7 "; "+3"; "-2"; "0"; "1_0"; ""; "abc"; "1.5"; "007"; "- 1";
     "_1"; "1__0"; "0x10"; "+"; "1_"; "+_1"; "--1"; "-0"; "1 2"; "12abc";
     "0_0"; "-007"]
  = [Some 15; Some 7; Some 3; Some (-2); Some 0; Some 10; None; None; None;
     Some 7; None; None; None; None; None; None; None; None; Some 0; None;
     None; Some 0; Some (-7)]%Z.
Proof. vm_compute. reflexivity. Qed.

(** ** How a cycle is put together, for any collaborators *)

Section CycleFacts.
Variable W : Type.
Variable E : Env W.
Variable cfg : Config.

Lemma deletes_app (e1 e2 : list event) :
  deletes (e1 ++ e2) = (deletes e1 ++ deletes e2)%list.
Proof.
  induction e1 as [|[c f i|b|b] e1 IH]; simpl; [reflexivity|assumption..|].
  now rewrite IH.
Qed.

Lemma call_outcome {A} (f : W -> result A * W) (w : W) :
  outcome (call f w) = fst (f w).
Proof. unfold call, outcome. now destruct (f w). Qed.

Lemma call_world {A} (f : W -> result A * W) (w : W) :
  world_after (call f w) = snd (f w).
Proof. unfold call, world_after. now destruct (f w). Qed.

Lemma call_events {A} (f : W -> result A * W) (w : W) :
  events (call f w) = [].
Proof. unfold call, events. now destruct (f w). Qed.

Lemma perform_outcome (w : W) :
  outcome (perform_sync_cycle E cfg w)
  = match outcome (sync_body E cfg w) with Val e => e | Exn => Raised end.
Proof.
  unfold perform_sync_cycle.
  now destruct (sync_body E cfg w) as [[[e|] w'] evs].
Qed.

Lemma perform_events (w : W) :
  events (perform_sync_cycle E cfg w) = events (sync_body E cfg w).
Proof.
  unfold perform_sync_cycle.
  now destruct (sync_body E cfg w) as [[[e|] w'] evs].
Qed.

Lemma perform_world (w : W) :
  world_after (perform_sync_cycle E cfg w) = world_after (sync_body E cfg w).
Proof.
  unfold perform_sync_cycle.
  now destruct (sync_body E cfg w) as [[[e|] w'] evs].
Qed.

(** The creation loop issues no delete call, the cleanup loop no create
  call. *)
Lemma creation_no_deletes (zid : string) (cur : list ZoneRecord)
  (desired : DesiredSet) (w : W) :
  deletes (events (creation_phase E cfg zid cur desired w)) = [].
Proof.
  destruct (deletes _) as [|a l] eqn:Hd; [reflexivity|]. exfalso.
  assert (Hin : In a (deletes (events (creation_phase E cfg zid cur desired w))))
    by (rewrite Hd; now left).
  apply in_deletes, for_each_event_origin in Hin as (x & w' & _ & He).
  destruct (creation_step_cases E cfg zid cur x w')
    as [[_ Hr]|[(_ & _ & Hr)|[(_ & _ & v & _ & Hr)|(_ & _ & _ & Hr)]]];
    cbv zeta in Hr; rewrite Hr in He; cbn [events snd In] in He;
    intuition discriminate.
Qed.

Lemma cleanup_no_creates (zid : string) (desired : DesiredSet)
  (recs : list ZoneRecord) (w : W) :
  creates (events (cleanup_phase E cfg zid desired recs w)) = [].
Proof.
  destruct (creates _) as [|a l] eqn:Hd; [reflexivity|]. exfalso.
  assert (Hin : In a (creates (events (cleanup_phase E cfg zid desired recs w))))
    by (rewrite Hd; now left).
  apply in_creates, for_each_event_origin in Hin as (x & w' & _ & He).
  destruct (cleanup_step_cases E cfg zid desired x w')
    as [[_ Hr]|[(_ & _ & Hr)|[(_ & _ & _ & Hr)|(_ & _ & _ & Hr)]]];
    cbv zeta in Hr; rewrite Hr in He; cbn [events snd In] in He;
    intuition discriminate.
Qed.

(** Lines 51-124 once the mesh inventory is there: the creation loop,
  then the second fetch, then the cleanup loop. *)
Lemma diff_cases (zid : string) (cur : list ZoneRecord)
  (ts : list MeshDevice) (w0 : W) :
  let desired := build_desired (alterHostname E) cfg ts in
  let first := creation_phase E cfg zid cur desired w0 in
  let run := diff_and_apply E cfg zid cur (Some ts) w0 in
  (outcome first = Exn /\ outcome run = Exn /\ events run = events first)
  \/ (outcome first = Val tt
      /\ (outcome run = Exn \/ outcome run = Val NoCleanupRecords)
      /\ events run = events first)
  \/ (outcome first = Val tt
      /\ exists recs w2,
           events run
           = (events first
              ++ events (cleanup_phase E cfg zid desired recs w2))%list
           /\ outcome run
              = match outcome (cleanup_phase E cfg zid desired recs w2) with
                | Val _ => Val Finished
                | Exn => Exn
                end
           /\ fst (getZoneRecords E (cf_key cfg) (cf_domain cfg) zid
                     (world_after first)) = Val (Some recs)
           /\ snd (getZoneRecords E (cf_key cfg) (cf_domain cfg) zid
                     (world_after first)) = w2
           /\ world_after run
              = world_after (cleanup_phase E cfg zid desired recs w2)).
Proof.
  cbv zeta. unfold diff_and_apply.
  rewrite outcome_bind, events_bind, world_bind.
  destruct (outcome (creation_phase E cfg zid cur _ w0)) as [[]|];
    [|left; auto].
  right.
  rewrite outcome_bind, events_bind, world_bind, call_outcome, call_events,
    call_world.
  destruct (getZoneRecords E (cf_key cfg) (cf_domain cfg) zid _)
    as [[[recs|]|] w2]; cbn [fst snd app].
  - right. split; [reflexivity|]. exists recs, w2.
    rewrite outcome_bind, events_bind, world_bind.
    destruct (outcome (cleanup_phase E cfg zid _ recs w2)) as [[]|];
      cbn [ret outcome events world_after fst snd];
      rewrite ?List.app_nil_r; auto.
  - left. cbn [ret outcome events fst snd app].
    rewrite ?List.app_nil_r. auto.
  - left. cbn [ret outcome events fst snd app].
    rewrite ?List.app_nil_r. auto.
Qed.

(** A cycle either ends before the creation loop, with no event, or is
  the run of lines 51-124 on what the three fetches returned. *)
Lemma cycle_cases (w : W) :
  let run := perform_sync_cycle E cfg w in
  (events run = []
   /\ In (outcome run)
         [NoZoneId; NoZoneRecords; InvalidMode; NoMeshRecords; Raised])
  \/ exists zid cur ts w0,
       events run = events (diff_and_apply E cfg zid cur (Some ts) w0)
       /\ outcome run
          = match outcome (diff_and_apply E cfg zid cur (Some ts) w0) with
            | Val e => e
            | Exn => Raised
            end
       /\ world_after run
          = world_after (diff_and_apply E cfg zid cur (Some ts) w0).
Proof.
  cbv zeta. rewrite perform_outcome, perform_events, perform_world.
  unfold sync_body.
  rewrite outcome_bind, events_bind, world_bind, call_outcome, call_events,
    call_world.
  destruct (getZoneId E _ _ w) as [[[zid|]|] w1]; cbn [fst snd app];
    [|left; cbn; tauto..].
  destruct (truthy zid); cbn [negb]; [|left; cbn; tauto].
  rewrite outcome_bind, events_bind, world_bind, call_outcome, call_events,
    call_world.
  destruct (getZoneRecords E _ _ zid w1) as [[[cur|]|] w2]; cbn [fst snd app];
    [|left; cbn; tauto..].
  assert (Hfetch : forall f : W -> result (option (list MeshDevice)) * W,
    let m := bind (call f)
               (fun ts_records => diff_and_apply E cfg zid cur ts_records) in
    (events (m w2) = []
     /\ In match outcome (m w2) with Val e => e | Exn => Raised end
           [NoZoneId; NoZoneRecords; InvalidMode; NoMeshRecords; Raised])
    \/ exists zid0 cur0 ts w0,
         events (m w2) = events (diff_and_apply E cfg zid0 cur0 (Some ts) w0)
         /\ match outcome (m w2) with Val e => e | Exn => Raised end
            = match outcome (diff_and_apply E cfg zid0 cur0 (Some ts) w0) with
              | Val e => e
              | Exn => Raised
              end
         /\ world_after (m w2)
            = world_after (diff_and_apply E cfg zid0 cur0 (Some ts) w0)).
  { intros f m. subst m.
    rewrite outcome_bind, events_bind, world_bind, call_outcome, call_events,
      call_world.
    destruct (f w2) as [[[ts|]|] w3]; cbn [fst snd app];
      [|left; cbn; tauto..].
    right. exists zid, cur, ts, w3. auto. }
  destruct (mode cfg =? "tailscale"); [apply Hfetch|].
  destruct (mode cfg =? "headscale"); [apply Hfetch|].
  left. cbn. tauto.
Qed.

End CycleFacts.

(** X1.  In every cycle all create calls come before all delete calls:
  the events split into a first part without delete call (the creation
  loop) and a second part without create call (the cleanup loop). *)
Theorem cycle_creates_before_deletes (W : Type) (E : Env W) (cfg : Config)
  (w : W) :
  exists evs1 evs2,
    events (perform_sync_cycle E cfg w) = (evs1 ++ evs2)%list
    /\ deletes evs1 = [] /\ creates evs2 = [].
Proof.
  destruct (cycle_cases E cfg w) as [[Hev _]|(zid & cur & ts & w0 & Hev & _)];
    cbv zeta in Hev; rewrite Hev.
  - exists [], []. repeat split.
  - destruct (diff_cases E cfg zid cur ts w0)
      as [(_ & _ & Hd)|[(_ & _ & Hd)|(_ & recs & w2 & Hd & _)]];
      cbv zeta in Hd; rewrite Hd.
    + eexists _, []. rewrite List.app_nil_r.
      split; [reflexivity|]. split; [apply creation_no_deletes | reflexivity].
    + eexists _, []. rewrite List.app_nil_r.
      split; [reflexivity|]. split; [apply creation_no_deletes | reflexivity].
    + eexists _, _. split; [reflexivity|].
      split; [apply creation_no_deletes | apply cleanup_no_creates].
Qed.

(** X2.  A cycle that leaves by one of the first four [return]
  statements (no zone id, no zone records, invalid mode, no mesh
  records) has produced no event at all; a cycle that leaves because
  the second fetch of the zone returned [None] has issued no delete
  call. *)
Theorem cycle_abort_no_mutation (W : Type) (E : Env W) (cfg : Config)
  (w : W) :
  let run := perform_sync_cycle E cfg w in
  (In (outcome run) [NoZoneId; NoZoneRecords; InvalidMode; NoMeshRecords] ->
   events run = [])
  /\ (outcome run = NoCleanupRecords -> deletes (events run) = []).
Proof.
  cbv zeta.
  destruct (cycle_cases E cfg w)
    as [[Hev Hout]|(zid & cur & ts & w0 & Hev & Hout & _)];
    cbv zeta in Hev, Hout.
  - rewrite Hev. split; [reflexivity|]. intros H. rewrite H in Hout.
    cbn in Hout. intuition discriminate.
  - rewrite Hev, Hout.
    destruct (diff_cases E cfg zid cur ts w0)
      as [(_ & Ho & Hd)|[(_ & Ho & Hd)|(_ & recs & w2 & Hd & Ho & _)]];
      cbv zeta in Hd, Ho; rewrite Hd.
    + rewrite Ho. split; [cbn; intuition discriminate | discriminate].
    + split.
      * destruct Ho as [-> | ->]; cbn; intuition discriminate.
      * intros _. apply creation_no_deletes.
    + rewrite Ho.
      destruct (outcome (cleanup_phase E cfg zid _ recs w2)) as [[]|];
        (split; [cbn; intuition discriminate | discriminate]).
Qed.

Lemma cycle_abort_no_mutation_witness :
  events (perform_sync_cycle
            (mkEnv (fun _ _ w => (Val (Some "zone-1"), w))
                   (fun _ _ _ w => (Val (Some (zone w)), w))
                   (fun _ _ _ _ w => (Val None, w))
                   (fun _ _ w => (Val None, w))
                   (createDNSRecord Sample.env) (deleteDNSRecord Sample.env)
                   Sample.rfc1123_label Sample.mesh_ipv4
                   (Sample.affix "" "") Sample.ipv4_address)
            (Sample.config "headscale" None)
            (Sample.world
               [mkZoneRecord "r9" "old.example.com" "100.64.0.9" "A"] []))
  = [].
Proof.
  apply (proj1 (cycle_abort_no_mutation
                  (mkEnv (fun _ _ w => (Val (Some "zone-1"), w))
                         (fun _ _ _ w => (Val (Some (zone w)), w))
                         (fun _ _ _ _ w => (Val None, w))
                         (fun _ _ w => (Val None, w))
                         (createDNSRecord Sample.env)
                         (deleteDNSRecord Sample.env)
                         Sample.rfc1123_label Sample.mesh_ipv4
                         (Sample.affix "" "") Sample.ipv4_address)
                  (Sample.config "headscale" None)
                  (Sample.world
                     [mkZoneRecord "r9" "old.example.com" "100.64.0.9" "A"]
                     []))).
  vm_compute. tauto.
Defined.

Lemma length_lower (s : string) : String.length (lower s) = String.length s.
Proof. induction s as [|c s IH]; simpl; [reflexivity | now rewrite IH]. Qed.

Lemma endswith_length (s suffix : string) :
  endswith s suffix = true -> String.length suffix <= String.length s.
Proof.
  intros H. apply endswith_spec in H as [p ->]. rewrite length_sapp. lia.
Qed.

Lemma lower_char_dot (c : ascii) :
  (lower_char c =? ".")%char = (c =? ".")%char.
Proof. destruct c as [[] [] [] [] [] [] [] []]; vm_compute; reflexivity. Qed.

Lemma lower_no_dot (s : string) :
  contains_char "." (lower s) = contains_char "." s.
Proof.
  induction s as [|c s IH]; cbn [lower contains_char]; [reflexivity|].
  now rewrite lower_char_dot, IH.
Qed.

Lemma first_label_no_dot (s : string) :
  contains_char "." (first_label s) = false.
Proof.
  induction s as [|c s IH]; cbn [first_label]; [reflexivity|].
  destruct (c =? ".")%char eqn:Hc; [reflexivity|].
  cbn [contains_char]. now rewrite Hc, IH.
Qed.

(** The delete calls and reports of a cleanup loop that runs to its end,
  record by record. *)
Lemma cleanup_loop_complete (W : Type) (E : Env W) (cfg : Config)
  (cf_ZoneId : string) (desired : DesiredSet) (recs : list ZoneRecord)
  (w : W) :
  let run := cleanup_phase E cfg cf_ZoneId desired recs w in
  outcome run = Val tt ->
  deletes (events run)
  = map (delete_args cfg cf_ZoneId)
        (filter (fun r =>
                   negb (PyDict.mem (lower (name r) ++ "_" ++ content r)
                                    desired)
                   && endswith (lower (name r)) (expected_ending cfg)
                   && isTailscaleIP E (content r))
                recs)
  /\ reports (events run)
     = map (fun r =>
              (if isTailscaleIP E (content r) then DELETING_STALE
               else SKIP_DELETE_NON_MESH_IP,
               lower (name r), content r))
           (filter (fun r =>
                      negb (PyDict.mem (lower (name r) ++ "_" ++ content r)
                                       desired)
                      && endswith (lower (name r)) (expected_ending cfg))
                   recs).
Proof.
  cbv zeta. unfold cleanup_phase. revert w.
  induction recs as [|r recs IH]; intros w.
  - intros _. split; reflexivity.
  - cbn [for_each filter]. rewrite outcome_bind, events_bind.
    destruct (cleanup_step_cases E cfg cf_ZoneId desired r w)
      as [[Hm Hrun]|[(Hm & Hs & Hrun)|[(Hm & Hs & Hi & Hrun)|(Hm & Hs & Hi & Hrun)]]];
      cbv zeta in Hrun; rewrite Hrun; cbn [outcome world_after events fst snd];
      rewrite Hm; try rewrite Hs; try rewrite Hi; cbn [negb andb].
    + intros H. destruct (IH _ H) as [IH1 IH2].
      rewrite deletes_app, reports_app, IH1, IH2. split; reflexivity.
    + intros H. destruct (IH _ H) as [IH1 IH2].
      rewrite deletes_app, reports_app, IH1, IH2. split; reflexivity.
    + intros H. destruct (IH _ H) as [IH1 IH2].
      rewrite deletes_app, reports_app, IH1, IH2. cbn [map]. rewrite Hi.
      split; reflexivity.
    + destruct (deleteDNSRecord E _ w) as [[[]|] w']; cbn [fst snd];
        [|discriminate].
      intros H. destruct (IH _ H) as [IH1 IH2].
      rewrite deletes_app, reports_app, IH1, IH2. cbn [map]. rewrite Hi.
      split; reflexivity.
Qed.

(** X3.  A cleanup phase that runs to its end issues exactly one delete
  call for each record of the snapshot that is not current, is under the
  managed suffix and holds a mesh address, in the order of the
  snapshot, and reports the records under the suffix that are not
  current, stale or non-mesh. *)
Theorem cleanup_deletes_exactly_stale (W : Type) (E : Env W) (cfg : Config)
  (cf_ZoneId : string) (desired : DesiredSet) (recs : list ZoneRecord)
  (w : W) :
  let run := cleanup_phase E cfg cf_ZoneId desired recs w in
  outcome run = Val tt ->
  deletes (events run)
  = map (delete_args cfg cf_ZoneId)
        (filter (fun r =>
                   negb (PyDict.mem (lower (name r) ++ "_" ++ content r)
                                    desired)
                   && endswith (lower (name r)) (expected_ending cfg)
                   && isTailscaleIP E (content r))
                recs)
  /\ reports (events run)
     = map (fun r =>
              (if isTailscaleIP E (content r) then DELETING_STALE
               else SKIP_DELETE_NON_MESH_IP,
               lower (name r), content r))
           (filter (fun r =>
                      negb (PyDict.mem (lower (name r) ++ "_" ++ content r)
                                       desired)
                      && endswith (lower (name r)) (expected_ending cfg))
                   recs).
Proof. apply cleanup_loop_complete. Qed.

Lemma cleanup_deletes_exactly_stale_witness :
  deletes (events
    (cleanup_phase Sample.env (Sample.config "headscale" None) "zone-1"
       [("laptop.example.com_100.64.0.1",
         mkDesired "laptop.example.com" "100.64.0.1" "laptop")]
       [mkZoneRecord "r1" "Laptop.example.com" "100.64.0.1" "A";
        mkZoneRecord "r2" "laptop.example.com" "100.64.0.2" "A";
        mkZoneRecord "r5" "printer.example.com" "203.0.113.5" "A";
        mkZoneRecord "r7" "www.example.org" "100.64.0.7" "A";
        mkZoneRecord "r9" "old.example.com" "100.64.0.9" "A"]
       (Sample.world [] [])))
  = [mkDelete "token" "example.com" "r2" "zone-1";
     mkDelete "token" "example.com" "r9" "zone-1"].
Proof.
  apply (cleanup_deletes_exactly_stale Sample.env
           (Sample.config "headscale" None) "zone-1"
           [("laptop.example.com_100.64.0.1",
             mkDesired "laptop.example.com" "100.64.0.1" "laptop")]
           [mkZoneRecord "r1" "Laptop.example.com" "100.64.0.1" "A";
            mkZoneRecord "r2" "laptop.example.com" "100.64.0.2" "A";
            mkZoneRecord "r5" "printer.example.com" "203.0.113.5" "A";
            mkZoneRecord "r7" "www.example.org" "100.64.0.7" "A";
            mkZoneRecord "r9" "old.example.com" "100.64.0.9" "A"]
           (Sample.world [] [])).
  vm_compute. reflexivity.
Defined.

(** X4.  A zone record that matches a device of the inventory (its
  lower-cased name is the device's fqdn and its content the device's
  address text) is left alone by the cleanup: the loop body does nothing
  for it, and when the ids of the snapshot are distinct no delete call
  of the phase carries its id. *)
Theorem cleanup_keeps_live_records (W : Type) (E : Env W) (cfg : Config)
  (cf_ZoneId : string) (ts_records : list MeshDevice) (dev : MeshDevice)
  (r : ZoneRecord) :
  In dev ts_records ->
  lower (name r) = tsfqdn_of (alterHostname E) cfg dev ->
  content r = address dev ->
  let desired := build_desired (alterHostname E) cfg ts_records in
  (forall w, cleanup_step E cfg cf_ZoneId desired r w = (Val tt, w, []))
  /\ (forall recs w a,
        NoDup (map id recs) -> In r recs ->
        In a (deletes (events (cleanup_phase E cfg cf_ZoneId desired recs w)))
        -> d_id a <> id r).
Proof.
  intros Hdev Hname Hcont desired.
  assert (Hmem : PyDict.mem (lower (name r) ++ "_" ++ content r) desired
                 = true).
  { rewrite Hname, Hcont.
    apply (build_from_has_key (alterHostname E) cfg (PyDict.empty _)
             ts_records dev Hdev). }
  split.
  - intros w.
    destruct (cleanup_step_cases E cfg cf_ZoneId desired r w)
      as [[_ Hrun]|[(Hm & _)|[(Hm & _)|(Hm & _)]]];
      [exact Hrun | congruence..].
  - intros recs w a Hnd Hr Ha Hid.
    apply cleanup_delete_origin in Ha as (s & Hs & -> & Hm & _).
    cbn [delete_args d_id] in Hid.
    assert (s = r) by (eapply NoDup_map_injective; eauto). subst s.
    congruence.
Qed.

Lemma cleanup_keeps_live_records_witness :
  cleanup_step Sample.env (Sample.config "headscale" None) "zone-1"
    (build_desired (alterHostname Sample.env) (Sample.config "headscale" None)
       [mkDevice "Laptop.mesh.local" "100.64.0.1"])
    (mkZoneRecord "r1" "LAPTOP.example.com" "100.64.0.1" "A")
    (Sample.world [] [])
  = (Val tt, Sample.world [] [], []).
Proof.
  apply (proj1 (cleanup_keeps_live_records Sample.env
                  (Sample.config "headscale" None) "zone-1"
                  [mkDevice "Laptop.mesh.local" "100.64.0.1"]
                  (mkDevice "Laptop.mesh.local" "100.64.0.1")
                  (mkZoneRecord "r1" "LAPTOP.example.com" "100.64.0.1" "A")
                  (or_introl eq_refl) eq_refl eq_refl)).
Defined.

(** X5.  Every create call of the creation phase is issued for a device
  of the inventory whose desired record the snapshot does not match and
  whose address [ipaddress] can read.  Its name is the lower-cased first
  label of the device's hostname, so it is lower-case and holds no dot;
  its type is "A" for an IPv4 address and "AAAA" for an IPv6 address;
  the content is the address text; token, domain, subdomain and zone id
  are those of the cycle. *)
Theorem create_call_shape (W : Type) (E : Env W) (cfg : Config)
  (cf_ZoneId : string) (cur : list ZoneRecord)
  (ts_records : list MeshDevice) (w : W) (a : CreateCall) :
  In a (creates (events
          (creation_phase E cfg cf_ZoneId cur
             (build_desired (alterHostname E) cfg ts_records) w))) ->
  exists dev v,
    In dev ts_records
    /\ up_to_date cur (tsfqdn_of (alterHostname E) cfg dev) (address dev)
       = false
    /\ ip_address E (address dev) = Some v
    /\ c_name a = lower (first_label (hostname dev))
    /\ lower (c_name a) = c_name a
    /\ contains_char "." (c_name a) = false
    /\ c_type a = match v with IPv4 => "A" | IPv6 => "AAAA" end
    /\ c_content a = address dev
    /\ c_token a = cf_key cfg /\ c_domain a = cf_domain cfg
    /\ c_subdomain a = cf_sub cfg /\ c_zoneId a = cf_ZoneId.
Proof.
  intros H.
  apply creation_create_origin in H as (k & d & v & Hin & -> & Hip & _ & Hu).
  apply build_from_items in Hin as [[]|(dev & Hdev & _ & ->)].
  exists dev, v. cbn [record_of fqdn ts_address original_hostname] in *.
  cbn [create_args c_name c_type c_content c_token c_domain c_subdomain
       c_zoneId record_of original_hostname ts_address].
  repeat split; try assumption.
  - apply lower_idem.
  - rewrite lower_no_dot. apply first_label_no_dot.
Qed.

Lemma create_call_shape_witness :
  exists dev v,
    In dev [mkDevice "Laptop" "100.64.0.1"]
    /\ up_to_date [] (tsfqdn_of (alterHostname Sample.env)
                        (Sample.config "headscale" None) dev) (address dev)
       = false
    /\ ip_address Sample.env (address dev) = Some v
    /\ "laptop" = lower (first_label (hostname dev))
    /\ lower "laptop" = "laptop"
    /\ contains_char "." "laptop" = false
    /\ "A" = match v with IPv4 => "A" | IPv6 => "AAAA" end
    /\ "100.64.0.1" = address dev
    /\ "token" = "token" /\ "example.com" = "example.com"
    /\ @None string = None /\ "zone-1" = "zone-1".
Proof.
  apply (create_call_shape Sample.env (Sample.config "headscale" None)
           "zone-1" [] [mkDevice "Laptop" "100.64.0.1"]
           (Sample.world [] [])
           (mkCreate "token" "example.com" "laptop" "A" "100.64.0.1" None
              "zone-1")).
  vm_compute. left. reflexivity.
Defined.

(** X6.  The managed suffix begins with a dot, so a record whose name is
  not longer than the domain is outside it: the record of the zone apex
  (named like the domain, in any case) is never reported or deleted by
  the cleanup, whatever its content. *)
Theorem cleanup_keeps_apex (W : Type) (E : Env W) (cfg : Config)
  (cf_ZoneId : string) (desired : DesiredSet) (r : ZoneRecord) (w : W) :
  String.length (name r) <= String.length (cf_domain cfg) ->
  cleanup_step E cfg cf_ZoneId desired r w = (Val tt, w, []).
Proof.
  intros Hlen.
  destruct (cleanup_step_cases E cfg cf_ZoneId desired r w)
    as [[_ Hrun]|[(_ & _ & Hrun)|[(_ & Hs & _)|(_ & Hs & _)]]];
    try exact Hrun;
    apply endswith_length in Hs; rewrite length_lower in Hs;
    unfold expected_ending in Hs; rewrite !length_sapp, length_lower in Hs;
    cbn [String.length] in Hs; lia.
Qed.

Lemma cleanup_keeps_apex_witness :
  cleanup_step Sample.env (Sample.config "headscale" None) "zone-1" []
    (mkZoneRecord "r0" "Example.COM" "100.64.0.5" "A") (Sample.world [] [])
  = (Val tt, Sample.world [] [], []).
Proof.
  apply (cleanup_keeps_apex Sample.env (Sample.config "headscale" None)
           "zone-1" []
           (mkZoneRecord "r0" "Example.COM" "100.64.0.5" "A")
           (Sample.world [] [])).
  vm_compute. reflexivity.
Defined.

(** ** Whole cycles against the provider *)

(** An item that is not matched and whose address cannot be read makes
  the creation loop raise, at that item or before. *)
Lemma creation_loop_bad_item (W : Type) (E : Env W) (cfg : Config)
  (zid : string) (cur : list ZoneRecord)
  (items : list (string * DesiredRecord)) (w : W) :
  (exists k d, In (k, d) items
     /\ up_to_date cur (fqdn d) (ts_address d) = false
     /\ ip_address E (ts_address d) = None) ->
  outcome (for_each (creation_step E cfg zid cur) items w) = Exn.
Proof.
  revert w. induction items as [|[k0 d0] items IH]; intros w (k & d & Hin & Hu & Hip).
  - destruct Hin.
  - cbn [for_each]. rewrite outcome_bind.
    destruct (creation_step_cases E cfg zid cur (k0, d0) w)
      as [[Hu0 Hrun]|[(_ & _ & Hrun)|[(_ & _ & v & Hip0 & Hrun)|(_ & _ & Hip0 & Hrun)]]];
      cbv zeta in Hrun; cbn [snd] in *; rewrite Hrun;
      cbn [outcome world_after fst snd]; try reflexivity.
    + apply IH. destruct Hin as [Heq|Hin]; [|eauto].
      injection Heq as <- <-. congruence.
    + destruct (createDNSRecord E _ w) as [[[]|] w']; cbn [fst snd];
        [|reflexivity].
      apply IH. destruct Hin as [Heq|Hin]; [|eauto].
      injection Heq as <- <-. congruence.
    + apply IH. destruct Hin as [Heq|Hin]; [|eauto].
      injection Heq as <- <-. congruence.
Qed.

(** A cleanup loop over a snapshot without stale record: no call, the
  world untouched. *)
Lemma cleanup_loop_no_stale (W : Type) (E : Env W) (cfg : Config)
  (zid : string) (desired : DesiredSet) (recs : list ZoneRecord) (w : W) :
  (forall r, In r recs ->
     negb (PyDict.mem (lower (name r) ++ "_" ++ content r) desired)
     && endswith (lower (name r)) (expected_ending cfg)
     && isTailscaleIP E (content r) = false) ->
  let run := for_each (cleanup_step E cfg zid desired) recs w in
  outcome run = Val tt /\ world_after run = w /\ deletes (events run) = []
  /\ creates (events run) = [].
Proof.
  cbv zeta. induction recs as [|r recs IH]; intros Hall.
  - repeat split.
  - cbn [for_each]. rewrite outcome_bind, world_bind, events_bind.
    specialize (IH (fun r' Hr' => Hall r' (or_intror Hr'))).
    destruct IH as (IH1 & IH2 & IH3 & IH4).
    specialize (Hall r (or_introl eq_refl)).
    destruct (cleanup_step_cases E cfg zid desired r w)
      as [[Hm Hrun]|[(Hm & Hs & Hrun)|[(Hm & Hs & Hi & Hrun)|(Hm & Hs & Hi & _)]]];
      try (rewrite Hm, Hs, Hi in Hall; discriminate);
      cbv zeta in Hrun; rewrite Hrun; cbn [outcome world_after events fst snd];
      rewrite deletes_app, creates_app, IH1, IH2, IH3, IH4; repeat split.
Qed.

Section ProviderWhole.
Variables valid mesh : string -> bool.
Variable alter : string -> string.
Variable ipa : string -> option ip_version.
Variable cfg : Config.

#[local] Abbreviation E := (provider valid mesh alter ipa).

(** With a zone id and one of the two modes, the cycle is the run of
  lines 51-124 on the zone and the inventory of the world. *)
Lemma provider_cycle_run (w : World) :
  truthy (zone_ident w) = true ->
  mode cfg = "tailscale" \/ mode cfg = "headscale" ->
  let run := perform_sync_cycle E cfg w in
  let diff := diff_and_apply E cfg (zone_ident w) (zone w)
                (Some (inventory w)) w in
  events run = events diff
  /\ outcome run = match outcome diff with Val e => e | Exn => Raised end
  /\ world_after run = world_after diff.
Proof.
  intros Hz Hmode. cbv zeta.
  rewrite perform_outcome, perform_events, perform_world.
  unfold sync_body.
  rewrite outcome_bind, events_bind, world_bind, call_outcome, call_events,
    call_world.
  cbn [provider getZoneId fst snd app]. rewrite Hz. cbn [negb].
  rewrite outcome_bind, events_bind, world_bind, call_outcome, call_events,
    call_world.
  cbn [provider getZoneRecords fst snd app].
  destruct Hmode as [-> | ->]; cbn [String.eqb Ascii.eqb Bool.eqb];
    rewrite outcome_bind, events_bind, world_bind, call_outcome, call_events,
      call_world;
    cbn [provider getTailscaleDevice getHeadscaleDevice fst snd app]; auto.
Qed.

(** A finished cycle had a zone id and one of the two modes. *)
Lemma provider_finished_inv (w : World) :
  outcome (perform_sync_cycle E cfg w) = Finished ->
  truthy (zone_ident w) = true
  /\ (mode cfg = "tailscale" \/ mode cfg = "headscale").
Proof.
  rewrite perform_outcome. unfold sync_body.
  rewrite outcome_bind, call_outcome, call_world.
  cbn [provider getZoneId fst snd].
  destruct (truthy (zone_ident w)); cbn [negb];
    [|cbn [ret outcome fst]; discriminate].
  rewrite outcome_bind, call_outcome, call_world.
  cbn [provider getZoneRecords fst snd].
  destruct (String.eqb_spec (mode cfg) "tailscale") as [Ht|_]; [auto|].
  destruct (String.eqb_spec (mode cfg) "headscale") as [Hh|_]; [auto|].
  cbn [ret outcome fst]. discriminate.
Qed.

(** The cleanup loop leaves the inventory and the zone id as they are. *)
Lemma provider_cleanup_keeps (zid : string) (desired : DesiredSet)
  (recs : list ZoneRecord) (w : World) :
  let run := for_each (cleanup_step E cfg zid desired) recs w in
  inventory (world_after run) = inventory w
  /\ zone_ident (world_after run) = zone_ident w.
Proof.
  cbv zeta. revert w. induction recs as [|r recs IH]; intros w.
  - split; reflexivity.
  - cbn [for_each]. rewrite world_bind.
    destruct (cleanup_step_cases E cfg zid desired r w)
      as [[_ Hrun]|[(_ & _ & Hrun)|[(_ & _ & _ & Hrun)|(_ & _ & _ & Hrun)]]];
      cbv zeta in Hrun; cbn [provider deleteDNSRecord fst snd] in Hrun;
      rewrite Hrun; cbn [outcome world_after fst snd];
      try apply IH.
    destruct (IH {| zone := zone_delete (delete_args cfg zid r) (zone w);
                    inventory := inventory w;
                    zone_ident := zone_ident w |}) as [H1 H2].
    split; assumption.
Qed.

(** Once the creation loop has run to its end the cycle finishes: the
  provider answers the second fetch and every delete. *)
Lemma provider_diff_run (zid : string) (cur : list ZoneRecord)
  (ts : list MeshDevice) (w : World) :
  let desired := build_desired alter cfg ts in
  let first := creation_phase E cfg zid cur desired w in
  let w1 := world_after first in
  let second := cleanup_phase E cfg zid desired (zone w1) w1 in
  outcome first = Val tt ->
  outcome second = Val tt
  /\ diff_and_apply E cfg zid cur (Some ts) w
     = (Val Finished, world_after second,
        (events first ++ events second)%list).
Proof.
  cbv zeta. intros Hfirst.
  assert (Hc : outcome
                 (cleanup_phase E cfg zid (build_desired alter cfg ts)
                    (zone (world_after (creation_phase E cfg zid cur
                                          (build_desired alter cfg ts) w)))
                    (world_after (creation_phase E cfg zid cur
                                    (build_desired alter cfg ts) w)))
               = Val tt)
    by exact (proj1 (provider_cleanup_loop valid mesh alter ipa cfg zid
                       (build_desired alter cfg ts) _ _)).
  split; [exact Hc|].
  assert (Heta : forall r : result cycle_end * World * list event,
            r = (outcome r, world_after r, events r))
    by (intros [[? ?] ?]; reflexivity).
  rewrite (Heta (diff_and_apply E cfg zid cur (Some ts) w)).
  unfold diff_and_apply. cbn [provider alterHostname].
  rewrite outcome_bind, world_bind, events_bind, Hfirst.
  rewrite outcome_bind, world_bind, events_bind, call_outcome, call_world,
    call_events.
  cbn [provider getZoneRecords fst snd app].
  rewrite outcome_bind, world_bind, events_bind, Hc.
  cbn [ret outcome world_after events fst snd].
  rewrite List.app_nil_r. reflexivity.
Qed.

End ProviderWhole.

(** X7.  The address of a record that is not matched is parsed before
  anything is created for it (line 76): when the desired set holds such
  a record with an address that [ipaddress] cannot read, the cycle ends
  by that exception, and it issues no delete call, because the cleanup
  loop is never reached. *)
Theorem unreadable_address_blocks_cleanup (valid mesh : string -> bool)
  (alter : string -> string) (ipa : string -> option ip_version)
  (cfg : Config) (w : World) (d : DesiredRecord) :
  truthy (zone_ident w) = true ->
  mode cfg = "tailscale" \/ mode cfg = "headscale" ->
  In d (PyDict.values (build_desired alter cfg (inventory w))) ->
  up_to_date (zone w) (fqdn d) (ts_address d) = false ->
  ipa (ts_address d) = None ->
  let run := perform_sync_cycle (provider valid mesh alter ipa) cfg w in
  outcome run = Raised /\ deletes (events run) = [].
Proof.
  intros Hz Hmode Hd Hu Hip run. subst run.
  destruct (provider_cycle_run valid mesh alter ipa cfg w Hz Hmode)
    as (Hev & Hout & _).
  rewrite Hev, Hout. clear Hev Hout.
  assert (Hexn : outcome (creation_phase (provider valid mesh alter ipa) cfg
                            (zone_ident w) (zone w)
                            (build_desired alter cfg (inventory w)) w) = Exn).
  { apply creation_loop_bad_item.
    apply in_map_iff in Hd as ([k d'] & Heq & Hin). cbn [snd] in Heq. subst d'.
    exists k, d. auto. }
  destruct (diff_cases (provider valid mesh alter ipa) cfg (zone_ident w)
              (zone w) (inventory w) w)
    as [(_ & Ho & Hd')|[(Hv & _)|(Hv & _)]];
    cbv zeta in *; cbn [provider alterHostname] in *; try congruence.
  rewrite Ho, Hd'. split; [reflexivity | apply creation_no_deletes].
Qed.

Lemma unreadable_address_blocks_cleanup_witness :
  deletes (events
    (perform_sync_cycle Sample.env (Sample.config "headscale" None)
       (Sample.world
          [mkZoneRecord "r9" "old.example.com" "100.64.0.9" "A"]
          [mkDevice "laptop" "100.64.0.1"; mkDevice "phone" "100.64.0.300"])))
  = [].
Proof.
  apply (unreadable_address_blocks_cleanup Sample.rfc1123_label
           Sample.mesh_ipv4 (Sample.affix "" "") Sample.ipv4_address
           (Sample.config "headscale" None)
           (Sample.world
              [mkZoneRecord "r9" "old.example.com" "100.64.0.9" "A"]
              [mkDevice "laptop" "100.64.0.1";
               mkDevice "phone" "100.64.0.300"])
           (mkDesired "phone.example.com" "100.64.0.300" "phone")).
  - reflexivity.
  - right. reflexivity.
  - simpl. right. left. reflexivity.
  - vm_compute. reflexivity.
  - vm_compute. reflexivity.
Defined.

(** X8.  An empty mesh inventory is not an error (only [None] is, line
  47): the cycle finishes, creates nothing and issues a delete call for
  every record of the zone that is under the managed suffix and holds a
  mesh address; no such record is left in the zone. *)
Theorem empty_inventory_purges_zone (valid mesh : string -> bool)
  (alter : string -> string) (ipa : string -> option ip_version)
  (cfg : Config) (w : World) :
  truthy (zone_ident w) = true ->
  mode cfg = "tailscale" \/ mode cfg = "headscale" ->
  inventory w = [] ->
  let E := provider valid mesh alter ipa in
  let run := perform_sync_cycle E cfg w in
  outcome run = Finished
  /\ creates (events run) = []
  /\ deletes (events run)
     = map (delete_args cfg (zone_ident w)) (filter (managed cfg mesh) (zone w))
  /\ (forall r, In r (zone (world_after run)) ->
                In r (zone w) /\ managed cfg mesh r = false).
Proof.
  intros Hz Hmode Hinv E run. subst run.
  destruct (provider_cycle_run valid mesh alter ipa cfg w Hz Hmode)
    as (Hev & Hout & _).
  destruct (provider_cycle_run valid mesh alter ipa cfg w Hz Hmode)
    as (_ & _ & Hw).
  fold E in Hev, Hout, Hw. cbv zeta in *. rewrite Hev, Hout, Hw.
  clear Hev Hout Hw.
  destruct (provider_diff_run valid mesh alter ipa cfg (zone_ident w)
              (zone w) (inventory w) w) as [Hc Hdiff].
  { rewrite Hinv. reflexivity. }
  fold E in Hc, Hdiff. rewrite Hdiff. clear Hdiff.
  rewrite Hinv in *.
  cbn [build_desired build_from creation_phase PyDict.items for_each ret
       outcome world_after events fst snd app] in *.
  unfold PyDict.empty in *.
  change (for_each (creation_step E cfg (zone_ident w) (zone w)) [] w)
    with (@Val unit tt, w, @nil event) in *.
  cbn [outcome world_after events fst snd app] in *.
  pose proof (proj2 (provider_cleanup_loop valid mesh alter ipa cfg
                      (zone_ident w) [] (zone w) w)) as Hzone.
  change (for_each (cleanup_step (provider valid mesh alter ipa) cfg
                      (zone_ident w) []) (zone w) w)
    with (cleanup_phase E cfg (zone_ident w) [] (zone w) w) in Hzone.
  split; [reflexivity|].
  split; [apply cleanup_no_creates|].
  split.
  - destruct (cleanup_loop_complete E cfg (zone_ident w) []
                (zone w) w Hc) as [Hdel _].
    rewrite Hdel. reflexivity.
  - intros r Hr. apply Hzone in Hr as [Hr Hkeep]. split; [exact Hr|].
    unfold managed.
    destruct (endswith (lower (name r)) (expected_ending cfg)) eqn:Hs;
      [|reflexivity].
    destruct (mesh (content r)) eqn:Hm; [|reflexivity].
    exfalso. now apply (Hkeep r Hr eq_refl Hs Hm).
Qed.

Lemma empty_inventory_purges_zone_witness :
  deletes (events
    (perform_sync_cycle Sample.env (Sample.config "headscale" None)
       (Sample.world
          [mkZoneRecord "r1" "laptop.example.com" "100.64.0.1" "A";
           mkZoneRecord "r5" "printer.example.com" "203.0.113.5" "A";
           mkZoneRecord "r8" "desk.example.com" "100.64.0.8" "A"]
          [])))
  = [mkDelete "token" "example.com" "r1" "zone-1";
     mkDelete "token" "example.com" "r8" "zone-1"].
Proof.
  apply (empty_inventory_purges_zone Sample.rfc1123_label Sample.mesh_ipv4
           (Sample.affix "" "") Sample.ipv4_address
           (Sample.config "headscale" None)
           (Sample.world
              [mkZoneRecord "r1" "laptop.example.com" "100.64.0.1" "A";
               mkZoneRecord "r5" "printer.example.com" "203.0.113.5" "A";
               mkZoneRecord "r8" "desk.example.com" "100.64.0.8" "A"]
              [])).
  - reflexivity.
  - right. reflexivity.
  - reflexivity.
Defined.

(** The cycle that follows a finished cycle finds nothing to do. *)
Lemma provider_second_cycle (valid mesh : string -> bool)
  (alter : string -> string) (ipa : string -> option ip_version)
  (cfg : Config) (w : World) :
  let E := provider valid mesh alter ipa in
  outcome (perform_sync_cycle E cfg w) = Finished ->
  NoDup (map id (zone w)) ->
  (forall dev, In dev (inventory w) ->
     lower (hostname_part alter dev) = hostname_part alter dev) ->
  let w2 := world_after (perform_sync_cycle E cfg w) in
  let again := perform_sync_cycle E cfg w2 in
  outcome again = Finished
  /\ world_after again = w2
  /\ creates (events again) = []
  /\ deletes (events again) = [].
Proof.
  intros E Hfin Hnd0 Hlow w2 again. subst again.
  destruct (provider_finished_inv valid mesh alter ipa cfg w Hfin)
    as [Hz Hmode].
  destruct (provider_cycle_shape valid mesh alter ipa cfg w Hfin)
    as [Hfirst Hworld].
  fold E in Hfirst, Hworld.
  destruct (@provider_zone_after_creation valid mesh alter ipa cfg
              (zone_ident w) (inventory w) Hlow (zone w) w Hfirst)
    as (news & Hw1 & Hnd & Hnew & Hitems).
  fold E in Hw1. rewrite Hw1 in Hworld. cbn [zone] in Hworld.
  specialize (Hnd Hnd0).
  set (desired := build_desired alter cfg (inventory w)) in *.
  set (w1 := {| zone := (zone w ++ news)%list; inventory := inventory w;
                zone_ident := zone_ident w |}) in *.
  pose proof (proj2 (provider_cleanup_loop valid mesh alter ipa cfg
                       (zone_ident w) desired (zone w ++ news)%list w1))
    as Hzone.
  destruct (provider_cleanup_keeps valid mesh alter ipa cfg (zone_ident w)
              desired (zone w ++ news)%list w1) as [Hinv Hzid].
  change (for_each (cleanup_step (provider valid mesh alter ipa) cfg
                      (zone_ident w) desired) (zone w ++ news)%list w1)
    with (cleanup_phase E cfg (zone_ident w) desired (zone w ++ news)%list w1)
    in Hzone, Hinv, Hzid.
  fold w2 in Hworld. rewrite <- Hworld in Hzone, Hinv, Hzid.
  cbn [w1 inventory zone_ident zone] in Hinv, Hzid, Hzone.
  clearbody w2. clear Hworld Hw1 Hfirst Hfin.
  (* a record that matches a desired record survives the cleanup *)
  assert (Hsurvive : forall r k d,
            In r (zone w ++ news)%list -> In (k, d) desired ->
            lower (name r) = fqdn d -> content r = ts_address d ->
            In r (zone w2)).
  { intros r k d Hr Hin Hf Hc. apply Hzone. split; [exact Hr|].
    intros s Hs Hmem _ _ Hid.
    assert (r = s) by (eapply NoDup_map_injective; eauto). subst s.
    destruct (desired_item_shape alter cfg (inventory w) _ _ Hin)
      as (_ & _ & Hk & _).
    rewrite Hf, Hc, <- Hk in Hmem.
    assert (PyDict.mem k desired = true)
      by (apply mem_keys; eapply In_keys; eauto).
    congruence. }
  (* the creation loop of the second cycle only reports *)
  assert (Hsettled : forall k d, In (k, d) desired ->
            up_to_date (zone w2) (fqdn d) (ts_address d) = true
            \/ (ip_address E (ts_address d) <> None
                /\ isValidDNSRecord E (original_hostname d) = false)).
  { intros k d Hin. cbn [E provider ip_address isValidDNSRecord].
    destruct (up_to_date (zone w) (fqdn d) (ts_address d)) eqn:Hu.
    - left. apply up_to_date_spec in Hu as (r & Hr & Hf & Hc).
      apply up_to_date_spec. exists r. split; [|now split].
      apply (Hsurvive r k d); auto. apply in_or_app. now left.
    - destruct (Hitems k d Hin Hu) as [Hip Hup].
      destruct (valid (original_hostname d)) eqn:Hv; [left | right; auto].
      apply up_to_date_spec in Hup as (r & Hr & Hf & Hc).
      apply up_to_date_spec. exists r. split; [|now split].
      apply (Hsurvive r k d); auto. apply in_or_app. now right. }
  pose proof (creation_loop_settled E cfg (zone_ident w) (zone w2) desired w2
                Hsettled) as Hcre.
  change (for_each (creation_step E cfg (zone_ident w) (zone w2)) desired w2)
    with (creation_phase E cfg (zone_ident w) (zone w2) desired w2) in Hcre.
  (* the cleanup loop of the second cycle finds nothing stale *)
  assert (Hclean : forall r, In r (zone w2) ->
            negb (PyDict.mem (lower (name r) ++ "_" ++ content r) desired)
            && endswith (lower (name r)) (expected_ending cfg)
            && isTailscaleIP E (content r) = false).
  { intros r Hr. cbn [E provider isTailscaleIP].
    apply Hzone in Hr as [Hr Hkeep].
    destruct (PyDict.mem _ desired) eqn:Hm; [reflexivity|].
    destruct (endswith _ _) eqn:Hs; [|reflexivity].
    destruct (mesh (content r)) eqn:Hi; [|reflexivity].
    exfalso. now apply (Hkeep r Hr Hm Hs Hi). }
  destruct (cleanup_loop_no_stale E cfg (zone_ident w) desired (zone w2) w2
              Hclean) as (Hc1 & Hc2 & Hc3 & Hc4).
  change (for_each (cleanup_step E cfg (zone_ident w) desired) (zone w2) w2)
    with (cleanup_phase E cfg (zone_ident w) desired (zone w2) w2)
    in Hc1, Hc2, Hc3, Hc4.
  (* the second cycle *)
  assert (Hz2 : truthy (zone_ident w2) = true) by (rewrite Hzid; exact Hz).
  destruct (provider_cycle_run valid mesh alter ipa cfg w2 Hz2 Hmode)
    as (Hev & Hout & Hwa).
  fold E in Hev, Hout, Hwa. cbv zeta in Hev, Hout, Hwa.
  rewrite Hev, Hout, Hwa. clear Hev Hout Hwa.
  rewrite Hinv, Hzid. fold desired.
  destruct (provider_diff_run valid mesh alter ipa cfg (zone_ident w)
              (zone w2) (inventory w) w2) as [_ Hdiff].
  { fold E desired. rewrite Hcre. reflexivity. }
  fold E desired in Hdiff. rewrite Hdiff. clear Hdiff.
  rewrite Hcre. cbn [outcome world_after events fst snd].
  rewrite creates_app, deletes_app, Hc2, Hc3, Hc4, !List.app_nil_r.
  split; [reflexivity|]. split; [reflexivity|].
  split; [apply creates_map_report|].
  pose proof (creation_no_deletes E cfg (zone_ident w) (zone w2) desired w2)
    as Hnd2.
  rewrite Hcre in Hnd2. exact Hnd2.
Qed.

(** X9.  Reconciliation reaches a fixed point in one cycle: against a
  provider that applies every call, with distinct record ids and a
  hostname transform that returns lower-case text, the cycle that
  follows a finished cycle finishes too, issues no create call and no
  delete call, and leaves the world as it found it. *)
Theorem second_cycle_is_noop (valid mesh : string -> bool)
  (alter : string -> string) (ipa : string -> option ip_version)
  (cfg : Config) (w : World) :
  let E := provider valid mesh alter ipa in
  outcome (perform_sync_cycle E cfg w) = Finished ->
  NoDup (map id (zone w)) ->
  (forall dev, In dev (inventory w) ->
     lower (hostname_part alter dev) = hostname_part alter dev) ->
  let w2 := world_after (perform_sync_cycle E cfg w) in
  let again := perform_sync_cycle E cfg w2 in
  outcome again = Finished
  /\ world_after again = w2
  /\ creates (events again) = []
  /\ deletes (events again) = [].
Proof. apply provider_second_cycle. Qed.

Lemma second_cycle_is_noop_witness :
  let cfg := Sample.config "headscale" None in
  let w := Sample.world
             [mkZoneRecord "r9" "old.example.com" "100.64.0.9" "A";
              mkZoneRecord "r5" "printer.example.com" "203.0.113.5" "A"]
             [mkDevice "Laptop" "100.64.0.1";
              mkDevice "my_laptop" "100.64.0.2"] in
  let w2 := world_after (perform_sync_cycle Sample.env cfg w) in
  world_after (perform_sync_cycle Sample.env cfg w2) = w2.
Proof.
  apply (second_cycle_is_noop Sample.rfc1123_label Sample.mesh_ipv4
           (Sample.affix "" "") Sample.ipv4_address
           (Sample.config "headscale" None)
           (Sample.world
              [mkZoneRecord "r9" "old.example.com" "100.64.0.9" "A";
               mkZoneRecord "r5" "printer.example.com" "203.0.113.5" "A"]
              [mkDevice "Laptop" "100.64.0.1";
               mkDevice "my_laptop" "100.64.0.2"])).
  - vm_compute. reflexivity.
  - simpl. repeat constructor; simpl; intuition discriminate.
  - intros dev [<-|[<-|[]]]; reflexivity.
Defined.

(** Iterating a cycle that finishes without mutation and gives the world
  back as it was, with a sleep that returns. *)
Lemma main_loop_fixed (py_sleep : Z -> bool) (W : Type) (E : Env W)
  (cfg : Config) (seconds : Z) (w : W) :
  py_sleep seconds = true ->
  outcome (perform_sync_cycle E cfg w) = Finished ->
  world_after (perform_sync_cycle E cfg w) = w ->
  creates (events (perform_sync_cycle E cfg w)) = [] ->
  deletes (events (perform_sync_cycle E cfg w)) = [] ->
  forall n,
    outcome (main_loop py_sleep E cfg seconds n w) = repeat Finished n
    /\ world_after (main_loop py_sleep E cfg seconds n w) = w
    /\ creates (events (main_loop py_sleep E cfg seconds n w)) = []
    /\ deletes (events (main_loop py_sleep E cfg seconds n w)) = [].
Proof.
  intros Hs Ho Hw Hc Hd n. induction n as [|n IH]; [repeat split|].
  cbn [main_loop]. rewrite Hs.
  destruct (perform_sync_cycle E cfg w) as [[e w'] evs].
  cbn [outcome world_after events fst snd] in Ho, Hw, Hc, Hd. subst e w'.
  destruct (main_loop py_sleep E cfg seconds n w) as [[es w''] evs'].
  cbn [outcome world_after events fst snd] in *.
  destruct IH as (-> & -> & Hc' & Hd').
  rewrite creates_app, deletes_app, Hc, Hd, Hc', Hd'. repeat split.
Qed.

(** X10.  The loop of the main block settles after its first cycle:
  under the conditions of X9, when the first cycle finishes and the
  sleep of line 152 returns for the configured interval, each of the
  following cycles finishes as well; when that sleep raises, the loop
  ends after the first cycle.  Either way the create and delete calls of
  the whole run are those of the first cycle, and the world after it is
  the world after the first cycle. *)
Theorem main_loop_settles (valid mesh : string -> bool)
  (alter : string -> string) (ipa : string -> option ip_version)
  (py_int : string -> option Z) (py_sleep : Z -> bool)
  (cfg : Config) (env_value : option string) (w : World) (n : nat) :
  let E := provider valid mesh alter ipa in
  let first := perform_sync_cycle E cfg w in
  outcome first = Finished ->
  NoDup (map id (zone w)) ->
  (forall dev, In dev (inventory w) ->
     lower (hostname_part alter dev) = hostname_part alter dev) ->
  let run := main py_int py_sleep E cfg env_value (S n) w in
  outcome run
  = (if py_sleep (sync_interval_seconds py_int env_value)
     then repeat Finished (S n) else [Finished])
  /\ world_after run = world_after first
  /\ creates (events run) = creates (events first)
  /\ deletes (events run) = deletes (events first).
Proof.
  intros E first Hfin Hnd Hlow run. subst run first. unfold main.
  destruct (provider_second_cycle valid mesh alter ipa cfg w Hfin Hnd Hlow)
    as (Ho & Hw & Hc & Hd).
  fold E in Ho, Hw, Hc, Hd.
  cbn [main_loop].
  destruct (py_sleep (sync_interval_seconds py_int env_value)) eqn:Hs.
  - destruct (@main_loop_fixed py_sleep World E cfg _ _ Hs Ho Hw Hc Hd n)
      as (Lo & Lw & Lc & Ld).
    destruct (perform_sync_cycle E cfg w) as [[e w2] evs].
    cbn [outcome world_after events fst snd] in *. subst e.
    destruct (main_loop py_sleep E cfg
                (sync_interval_seconds py_int env_value) n w2)
      as [[es w3] evs'].
    cbn [outcome world_after events fst snd repeat] in *. subst es w3.
    rewrite creates_app, deletes_app, Lc, Ld, !List.app_nil_r. repeat split.
  - destruct (perform_sync_cycle E cfg w) as [[e w2] evs].
    cbn [outcome world_after events fst snd] in *. subst e.
    repeat split.
Qed.

Lemma main_loop_settles_witness :
  let cfg := Sample.config "headscale" None in
  let w := Sample.world
             [mkZoneRecord "r9" "old.example.com" "100.64.0.9" "A"]
             [mkDevice "Laptop" "100.64.0.1"] in
  deletes (events (main SampleInt.int SampleInt.sleep Sample.env cfg
                     (Some "30") 4 w))
  = deletes (events (perform_sync_cycle Sample.env cfg w)).
Proof.
  apply (main_loop_settles Sample.rfc1123_label Sample.mesh_ipv4
           (Sample.affix "" "") Sample.ipv4_address
           SampleInt.int SampleInt.sleep
           (Sample.config "headscale" None) (Some "30")
           (Sample.world
              [mkZoneRecord "r9" "old.example.com" "100.64.0.9" "A"]
              [mkDevice "Laptop" "100.64.0.1"]) 3).
  - vm_compute. reflexivity.
  - simpl. repeat constructor; simpl; intuition discriminate.
  - intros dev [<-|[]]; reflexivity.
Defined.

(** A cycle that raises is the last one: the device's address cannot be
  read, the first cycle ends by the exception and the loop with it.  A
  sleep that raises ends the loop too: with an interval of 153722868
  minutes the first cycle finishes and no second cycle runs. *)
Example main_loop_stops :
  outcome (main SampleInt.int SampleInt.sleep Sample.env
             (Sample.config "headscale" None) (Some "30") 5
             (Sample.world [] [mkDevice "phone" "100.64.0.300"]))
  = [Raised]
  /\ outcome (main SampleInt.int SampleInt.sleep Sample.env
                (Sample.config "headscale" None) (Some "153722868") 5
                (Sample.world [] [mkDevice "phone" "100.64.0.3"]))
     = [Finished].
Proof. vm_compute. split; reflexivity. Qed.

(** X11.  The sync interval is always a positive number of minutes: the
  value of SYNC_INTERVAL_MINUTES when [int] reads it as a positive
  integer, and 15 when [int] rejects it or reads zero or a negative
  number; with the variable unset it is 15.  The sleep of the loop is
  sixty times that, at least 60 seconds. *)
Theorem sync_interval_positive (py_int : string -> option Z)
  (env_value : option string) :
  py_int "15" = Some 15%Z ->
  let minutes := sync_interval_minutes py_int env_value in
  (0 < minutes)%Z
  /\ sync_interval_seconds py_int env_value = (60 * minutes)%Z
  /\ (60 <= sync_interval_seconds py_int env_value)%Z
  /\ (forall v n, env_value = Some v -> py_int v = Some n ->
        (0 < n)%Z -> minutes = n)
  /\ (forall v n, env_value = Some v -> py_int v = Some n ->
        (n <= 0)%Z -> minutes = 15%Z)
  /\ (forall v, env_value = Some v -> py_int v = None -> minutes = 15%Z)
  /\ (env_value = None -> minutes = 15%Z).
Proof.
  intros H15 minutes.
  assert (Hcases :
    (exists n, py_int (sync_interval_minutes_str env_value) = Some n
               /\ (0 < n)%Z /\ minutes = n)
    \/ ((forall n, py_int (sync_interval_minutes_str env_value) = Some n ->
                   (n <= 0)%Z)
        /\ minutes = 15%Z)).
  { subst minutes. unfold sync_interval_minutes.
    destruct (py_int (sync_interval_minutes_str env_value)) as [n|].
    - destruct (Z.leb_spec n 0).
      + right. split; [|reflexivity]. intros m Hm. injection Hm as <-. lia.
      + left. exists n. auto.
    - right. split; [|reflexivity]. intros m Hm. discriminate. }
  assert (Hpos : (0 < minutes)%Z).
  { destruct Hcases as [(n & _ & Hn & ->)|[_ ->]]; lia. }
  unfold sync_interval_seconds. fold minutes.
  split; [exact Hpos|]. split; [lia|]. split; [lia|].
  split; [|split; [|split]].
  - intros v n -> Hv Hn. cbn [sync_interval_minutes_str] in Hcases.
    destruct Hcases as [(m & Hm & _ & ->)|[Hle _]]; [congruence|].
    specialize (Hle n Hv). lia.
  - intros v n -> Hv Hn. cbn [sync_interval_minutes_str] in Hcases.
    destruct Hcases as [(m & Hm & Hm0 & _)|[_ H]]; [|exact H].
    assert (m = n) by congruence. lia.
  - intros v -> Hv. cbn [sync_interval_minutes_str] in Hcases.
    destruct Hcases as [(m & Hm & _)|[_ H]]; [congruence | exact H].
  - intros ->. cbn [sync_interval_minutes_str] in Hcases.
    destruct Hcases as [(m & Hm & _ & ->)|[_ H]]; [congruence | exact H].
Qed.

Lemma sync_interval_positive_witness :
  map (sync_interval_minutes SampleInt.int)
      [None; Some "5"; Some " 30 "; Some "0"; Some "-10"; Some "soon";
       Some ""; Some "1.5"]
  = [15; 5; 30; 15; 15; 15; 15; 15]%Z
  /\ (0 < sync_interval_minutes SampleInt.int (Some "-10"))%Z.
Proof.
  split; [vm_compute; reflexivity|].
  apply (sync_interval_positive SampleInt.int (Some "-10")).
  vm_compute. reflexivity.
Defined.

(** ** More on the builder and on the two matching tests *)

Lemma set_fresh {V} (k : string) (v : V) (d : PyDict.dict V) :
  ~ In k (PyDict.keys d) -> PyDict.set k v d = (d ++ [(k, v)])%list.
Proof.
  induction d as [|[k' v'] d IH]; cbn [PyDict.set PyDict.keys map fst app In];
    intros Hnot; [reflexivity|].
  destruct (String.eqb_spec k' k) as [->|_]; [tauto|].
  rewrite IH by tauto. reflexivity.
Qed.

Lemma set_length {V} (k : string) (v : V) (d : PyDict.dict V) :
  length (PyDict.set k v d) <= S (length d).
Proof.
  induction d as [|[k' v'] d IH]; cbn [PyDict.set length]; [lia|].
  destruct (k' =? k); cbn [length]; lia.
Qed.

Lemma build_from_length (alter : string -> string) (cfg : Config)
  (acc : DesiredSet) (l : list MeshDevice) :
  length (build_from alter cfg acc l) <= length acc + length l.
Proof.
  revert acc. induction l as [|dev l IH]; intros acc; cbn [build_from length];
    [lia|].
  specialize (IH (PyDict.set (key_of alter cfg dev) (record_of alter cfg dev)
                    acc)).
  pose proof (set_length (key_of alter cfg dev) (record_of alter cfg dev) acc).
  lia.
Qed.

Lemma build_from_distinct (alter : string -> string) (cfg : Config)
  (acc : DesiredSet) (l : list MeshDevice) :
  NoDup (map (key_of alter cfg) l) ->
  (forall dev, In dev l -> ~ In (key_of alter cfg dev) (PyDict.keys acc)) ->
  build_from alter cfg acc l
  = (acc ++ map (fun dev => (key_of alter cfg dev, record_of alter cfg dev)) l)
      %list.
Proof.
  revert acc. induction l as [|dev l IH]; intros acc Hnd Hacc;
    cbn [build_from map].
  - now rewrite List.app_nil_r.
  - inversion Hnd as [|? ? Hnotin Hnd']; subst.
    rewrite set_fresh by (apply Hacc; now left).
    rewrite IH; [now rewrite <- List.app_assoc | exact Hnd' |].
    intros dev' Hdev'. unfold PyDict.keys. rewrite map_app, in_app_iff.
    cbn [map fst In]. intros [H|[H|[]]].
    + apply (Hacc dev'); [now right | exact H].
    + apply Hnotin. rewrite H. now apply in_map.
Qed.

(** X12.  The desired set never has more items than the inventory has
  devices and its keys are distinct; when no two devices share a key it
  is the inventory itself, item by item and in the same order, each
  device under its key fqdn + "_" + address. *)
Theorem builder_without_collision (alter : string -> string) (cfg : Config)
  (ts_records : list MeshDevice) :
  length (PyDict.items (build_desired alter cfg ts_records))
  <= length ts_records
  /\ NoDup (PyDict.keys (build_desired alter cfg ts_records))
  /\ (NoDup (map (key_of alter cfg) ts_records) ->
      PyDict.items (build_desired alter cfg ts_records)
      = map (fun dev => (tsfqdn_of alter cfg dev ++ "_" ++ address dev,
                         mkDesired (tsfqdn_of alter cfg dev) (address dev)
                                   (hostname dev)))
            ts_records).
Proof.
  split; [|split].
  - unfold PyDict.items, build_desired.
    pose proof (build_from_length alter cfg (PyDict.empty _) ts_records) as H.
    cbn [PyDict.empty length] in H. lia.
  - apply build_desired_NoDup.
  - intros Hnd. unfold PyDict.items, build_desired.
    rewrite build_from_distinct; [reflexivity | exact Hnd |].
    intros dev _ [].
Qed.

Lemma builder_without_collision_witness :
  PyDict.items
    (build_desired (Sample.affix "" "") (Sample.config "headscale" (Some "Mesh"))
       [mkDevice "Laptop.local" "100.64.0.1";
        mkDevice "laptop" "fd7a:115c:a1e0::1"])
  = [("laptop.mesh.example.com_100.64.0.1",
      mkDesired "laptop.mesh.example.com" "100.64.0.1" "Laptop.local");
     ("laptop.mesh.example.com_fd7a:115c:a1e0::1",
      mkDesired "laptop.mesh.example.com" "fd7a:115c:a1e0::1" "laptop")].
Proof.
  apply (builder_without_collision (Sample.affix "" "")
           (Sample.config "headscale" (Some "Mesh"))
           [mkDevice "Laptop.local" "100.64.0.1";
            mkDevice "laptop" "fd7a:115c:a1e0::1"]).
  simpl. repeat constructor; simpl; intuition discriminate.
Defined.

(** X13.  The creation loop asks whether some zone record equals a
  desired record on name and content; the cleanup loop asks whether the
  concatenated key of a zone record is in the dictionary.  A zone record
  that matches a desired record is always current for the cleanup; a
  zone record that is current matches a desired record provided its
  content and the addresses of the inventory hold no underscore. *)
Theorem matching_tests_agree (alter : string -> string) (cfg : Config)
  (ts_records : list MeshDevice) (r : ZoneRecord) :
  let desired := build_desired alter cfg ts_records in
  let key := lower (name r) ++ "_" ++ content r in
  ((exists d, In d (PyDict.values desired)
              /\ up_to_date [r] (fqdn d) (ts_address d) = true)
   -> PyDict.mem key desired = true)
  /\ (contains_char "_" (content r) = false ->
      (forall dev, In dev ts_records ->
                   contains_char "_" (address dev) = false) ->
      PyDict.mem key desired = true ->
      exists d, In d (PyDict.values desired)
                /\ up_to_date [r] (fqdn d) (ts_address d) = true).
Proof.
  intros desired key. split.
  - intros (d & Hd & Hu).
    apply up_to_date_spec in Hu as (r' & [<-|[]] & Hf & Hc).
    apply in_map_iff in Hd as ([k d'] & Heq & Hin). cbn [snd] in Heq.
    subst d'.
    destruct (desired_item_shape alter cfg ts_records _ _ Hin)
      as (_ & _ & Hk & _).
    apply mem_keys. subst key. rewrite Hf, Hc, <- Hk.
    eapply In_keys. exact Hin.
  - intros Hcr Hca Hmem.
    apply mem_get in Hmem as [d Hget]. apply get_In in Hget.
    destruct (desired_item_shape alter cfg ts_records _ _ Hget)
      as (dev & Hdev & Hk & Hd).
    exists d. split; [apply (in_map snd) in Hget; exact Hget|].
    apply key_injective in Hk as [Hf Ha]; [|exact Hcr|].
    + apply up_to_date_spec. exists r. split; [now left | now split].
    + subst d. cbn [record_of ts_address]. now apply Hca.
Qed.

Lemma matching_tests_agree_witness :
  PyDict.mem "laptop.example.com_100.64.0.1"
    (build_desired (Sample.affix "" "") (Sample.config "headscale" None)
       [mkDevice "laptop" "100.64.0.1"]) = true.
Proof.
  apply (proj1 (matching_tests_agree (Sample.affix "" "")
                  (Sample.config "headscale" None)
                  [mkDevice "laptop" "100.64.0.1"]
                  (mkZoneRecord "r1" "Laptop.Example.COM" "100.64.0.1" "A"))).
  exists (mkDesired "laptop.example.com" "100.64.0.1" "laptop").
  split; [left; reflexivity | vm_compute; reflexivity].
Defined.

(** ** Reports and calls *)

(** A property of traces that holds of the empty trace, of the trace of
  each iteration and of concatenations holds of the trace of a loop. *)
Lemma for_each_events_closed {W A} (P : list event -> Prop)
  (body : A -> M W unit) (l : list A) (w : W) :
  P [] ->
  (forall e1 e2, P e1 -> P e2 -> P (e1 ++ e2)%list) ->
  (forall x w', P (events (body x w'))) ->
  P (events (for_each body l w)).
Proof.
  intros Hnil Happ Hstep. revert w.
  induction l as [|x l IH]; intros w; cbn [for_each]; [exact Hnil|].
  rewrite events_bind. destruct (outcome (body x w)) as [[]|]; auto.
Qed.

(** X14.  Every mutation is announced: in the events of any cycle, cut
  short or not, the create calls are as many as the ADDING reports and
  carry their addresses in the same order, and the delete calls are as
  many as the DELETING-STALE reports. *)
Theorem mutations_are_announced (W : Type) (E : Env W) (cfg : Config)
  (w : W) :
  let evs := events (perform_sync_cycle E cfg w) in
  map c_content (creates evs)
  = map snd (filter (fun rep => match fst (fst rep) with
                                | ADDING => true
                                | _ => false
                                end) (reports evs))
  /\ length (deletes evs)
     = length (filter (fun rep => match fst (fst rep) with
                                  | DELETING_STALE => true
                                  | _ => false
                                  end) (reports evs)).
Proof.
  set (P := fun evs : list event =>
    map c_content (creates evs)
    = map snd (filter (fun rep => match fst (fst rep) with
                                  | ADDING => true
                                  | _ => false
                                  end) (reports evs))
    /\ length (deletes evs)
       = length (filter (fun rep => match fst (fst rep) with
                                    | DELETING_STALE => true
                                    | _ => false
                                    end) (reports evs))).
  change (P (events (perform_sync_cycle E cfg w))).
  assert (Hnil : P []) by (split; reflexivity).
  assert (Happ : forall e1 e2, P e1 -> P e2 -> P (e1 ++ e2)%list).
  { intros e1 e2 [H1 H2] [H3 H4]. unfold P.
    rewrite creates_app, deletes_app, reports_app, !filter_app, !map_app,
      !length_app, H1, H2, H3, H4. split; reflexivity. }
  assert (Hcre : forall zid cur desired w0,
            P (events (creation_phase E cfg zid cur desired w0))).
  { intros zid cur desired w0. unfold creation_phase, PyDict.items.
    apply (for_each_events_closed P); auto.
    intros x w'.
    destruct (creation_step_cases E cfg zid cur x w')
      as [[_ Hr]|[(_ & _ & Hr)|[(_ & _ & v & _ & Hr)|(_ & _ & _ & Hr)]]];
      cbv zeta in Hr; rewrite Hr; split; reflexivity. }
  assert (Hcln : forall zid desired recs w0,
            P (events (cleanup_phase E cfg zid desired recs w0))).
  { intros zid desired recs w0. unfold cleanup_phase.
    apply (for_each_events_closed P); auto.
    intros x w'.
    destruct (cleanup_step_cases E cfg zid desired x w')
      as [[_ Hr]|[(_ & _ & Hr)|[(_ & _ & _ & Hr)|(_ & _ & _ & Hr)]]];
      cbv zeta in Hr; rewrite Hr; split; reflexivity. }
  destruct (cycle_cases E cfg w) as [[Hev _]|(zid & cur & ts & w0 & Hev & _)];
    cbv zeta in Hev; rewrite Hev; [exact Hnil|].
  destruct (diff_cases E cfg zid cur ts w0)
    as [(_ & _ & Hd)|[(_ & _ & Hd)|(_ & recs & w2 & Hd & _)]];
    cbv zeta in Hd; rewrite Hd; auto.
Qed.

(** X15.  What a finished cycle removes from the zone: with distinct
  record ids and a provider that applies every call, a record that was
  in the zone before the cycle is still there afterwards exactly when it
  is not stale, that is when its key is in the desired set, or its name
  is outside the managed suffix, or its content is not a mesh address.
  Records that the engine does not manage are never lost. *)
Theorem cycle_removes_exactly_stale (valid mesh : string -> bool)
  (alter : string -> string) (ipa : string -> option ip_version)
  (cfg : Config) (w : World) (r : ZoneRecord) :
  let E := provider valid mesh alter ipa in
  let run := perform_sync_cycle E cfg w in
  let desired := build_desired alter cfg (inventory w) in
  outcome run = Finished ->
  NoDup (map id (zone w)) ->
  In r (zone w) ->
  (In r (zone (world_after run))
   <-> negb (PyDict.mem (lower (name r) ++ "_" ++ content r) desired)
       && endswith (lower (name r)) (expected_ending cfg)
       && mesh (content r) = false).
Proof.
  intros E run desired Hfin Hnd0 Hr. subst run E.
  destruct (provider_cycle_shape valid mesh alter ipa cfg w Hfin)
    as [Hfirst Hworld].
  fold desired in Hfirst, Hworld. rewrite Hworld. clear Hworld.
  destruct (provider_creation_loop valid mesh alter ipa cfg (zone_ident w)
              (zone w) desired w Hfirst) as (news & Hw1 & _ & _ & Hnd).
  change (for_each (creation_step (provider valid mesh alter ipa) cfg
                      (zone_ident w) (zone w)) desired w)
    with (creation_phase (provider valid mesh alter ipa) cfg (zone_ident w)
            (zone w) desired w) in Hw1.
  rewrite Hw1. cbn [zone]. clear Hw1. specialize (Hnd Hnd0).
  pose proof (proj2 (provider_cleanup_loop valid mesh alter ipa cfg
                       (zone_ident w) desired (zone w ++ news)%list
                       {| zone := (zone w ++ news)%list;
                          inventory := inventory w;
                          zone_ident := zone_ident w |}) r) as Hzone.
  cbn [zone] in Hzone. unfold cleanup_phase. rewrite Hzone. clear Hzone.
  assert (Hr1 : In r (zone w ++ news)%list) by (apply in_or_app; now left).
  split.
  - intros [_ Hkeep].
    destruct (PyDict.mem _ desired) eqn:Hm; [reflexivity|].
    destruct (endswith _ _) eqn:Hs; [|reflexivity].
    destruct (mesh (content r)) eqn:Hi; [|reflexivity].
    exfalso. now apply (Hkeep r Hr1 Hm Hs Hi).
  - intros Hns. split; [exact Hr1|].
    intros s Hs Hm Hsuf Hi Hid.
    assert (r = s) by (eapply NoDup_map_injective; eauto). subst s.
    rewrite Hm, Hsuf, Hi in Hns. discriminate.
Qed.

Lemma cycle_removes_exactly_stale_witness :
  let cfg := Sample.config "headscale" None in
  let w := Sample.world
             [mkZoneRecord "r9" "old.example.com" "100.64.0.9" "A";
              mkZoneRecord "r5" "printer.example.com" "203.0.113.5" "A";
              mkZoneRecord "r7" "www.example.org" "100.64.0.7" "A"]
             [mkDevice "Laptop" "100.64.0.1"] in
  In (mkZoneRecord "r5" "printer.example.com" "203.0.113.5" "A")
     (zone (world_after (perform_sync_cycle Sample.env cfg w))).
Proof.
  apply (cycle_removes_exactly_stale Sample.rfc1123_label Sample.mesh_ipv4
           (Sample.affix "" "") Sample.ipv4_address
           (Sample.config "headscale" None)
           (Sample.world
              [mkZoneRecord "r9" "old.example.com" "100.64.0.9" "A";
               mkZoneRecord "r5" "printer.example.com" "203.0.113.5" "A";
               mkZoneRecord "r7" "www.example.org" "100.64.0.7" "A"]
              [mkDevice "Laptop" "100.64.0.1"])
           (mkZoneRecord "r5" "printer.example.com" "203.0.113.5" "A")).
  - vm_compute. reflexivity.
  - simpl. repeat constructor; simpl; intuition discriminate.
  - simpl. right. left. reflexivity.
  - vm_compute. reflexivity.
Defined.

(** ** The currency test of the cleanup *)

(** When the delete calls for the records of the snapshot return, the
  cleanup loop runs to its end. *)
Lemma cleanup_loop_total (W : Type) (E : Env W) (cfg : Config)
  (zid : string) (desired : DesiredSet) (recs : list ZoneRecord) (w : W) :
  (forall s w', In s recs ->
     fst (deleteDNSRecord E (delete_args cfg zid s) w') = Val tt) ->
  outcome (for_each (cleanup_step E cfg zid desired) recs w) = Val tt.
Proof.
  revert w. induction recs as [|r recs IH]; intros w Hdel; [reflexivity|].
  cbn [for_each]. rewrite outcome_bind.
  assert (Htail : forall s w', In s recs ->
            fst (deleteDNSRecord E (delete_args cfg zid s) w') = Val tt)
    by (intros s w' Hs; apply Hdel; now right).
  destruct (cleanup_step_cases E cfg zid desired r w)
    as [[_ Hrun]|[(_ & _ & Hrun)|[(_ & _ & _ & Hrun)|(_ & _ & _ & Hrun)]]];
    cbv zeta in Hrun; rewrite Hrun; cbn [outcome world_after fst snd];
    try (now apply IH).
  rewrite (Hdel r w (or_introl eq_refl)). now apply IH.
Qed.

(** C10 (amended).  The currency test of the cleanup phase is a lookup
  of the string lower(name) + "_" + content among the keys of the
  desired set: a record whose key is present is skipped.  A desired
  record with the same fqdn and an address written differently does not
  provide the key, and for a desired set built from an inventory (no
  underscore in addresses) the key is absent as soon as no device has
  this fqdn with this very address text.  A record whose key is absent,
  whose name ends with the managed suffix and whose content passes the
  mesh-address predicate is reported stale and [deleteDNSRecord] is
  called for it when the loop reaches it: the delete call is issued
  whenever the delete calls for the records before it in the snapshot
  returned, and when no delete call raises the phase runs to its end
  and issues exactly these calls. *)
Theorem cleanup_currency_is_key_lookup (W : Type) (E : Env W) (cfg : Config)
  (cf_ZoneId : string) (desired : DesiredSet) :
  (forall cf_rec w,
     In (lower (name cf_rec) ++ "_" ++ content cf_rec) (PyDict.keys desired)
     -> cleanup_step E cfg cf_ZoneId desired cf_rec w = (Val tt, w, []))
  /\ (forall cf_rec w,
        ~ In (lower (name cf_rec) ++ "_" ++ content cf_rec)
             (PyDict.keys desired) ->
        endswith (lower (name cf_rec)) (expected_ending cfg) = true ->
        isTailscaleIP E (content cf_rec) = true ->
        cleanup_step E cfg cf_ZoneId desired cf_rec w
        = (fst (deleteDNSRecord E (delete_args cfg cf_ZoneId cf_rec) w),
           snd (deleteDNSRecord E (delete_args cfg cf_ZoneId cf_rec) w),
           [Report DELETING_STALE (lower (name cf_rec)) (content cf_rec);
            CallDelete (delete_args cfg cf_ZoneId cf_rec)]))
  /\ (forall (cf_rec : ZoneRecord) (d : DesiredRecord),
        lower (name cf_rec) = fqdn d -> content cf_rec <> ts_address d ->
        lower (name cf_rec) ++ "_" ++ content cf_rec
        <> fqdn d ++ "_" ++ ts_address d)
  /\ (forall cf_rec ts_records,
        desired = build_desired (alterHostname E) cfg ts_records ->
        contains_char "_" (content cf_rec) = false ->
        (forall dev, In dev ts_records ->
                     contains_char "_" (address dev) = false) ->
        (forall dev, In dev ts_records ->
                     tsfqdn_of (alterHostname E) cfg dev = lower (name cf_rec)
                     -> address dev <> content cf_rec) ->
        ~ In (lower (name cf_rec) ++ "_" ++ content cf_rec)
             (PyDict.keys desired))
  /\ (forall pre cf_rec post w,
        (forall s w', In s pre ->
           fst (deleteDNSRecord E (delete_args cfg cf_ZoneId s) w') = Val tt) ->
        ~ In (lower (name cf_rec) ++ "_" ++ content cf_rec)
             (PyDict.keys desired) ->
        endswith (lower (name cf_rec)) (expected_ending cfg) = true ->
        isTailscaleIP E (content cf_rec) = true ->
        In (delete_args cfg cf_ZoneId cf_rec)
           (deletes (events
              (cleanup_phase E cfg cf_ZoneId desired
                 (pre ++ cf_rec :: post)%list w))))
  /\ (forall recs w,
        (forall s w', In s recs ->
           fst (deleteDNSRecord E (delete_args cfg cf_ZoneId s) w') = Val tt) ->
        let run := cleanup_phase E cfg cf_ZoneId desired recs w in
        outcome run = Val tt
        /\ deletes (events run)
           = map (delete_args cfg cf_ZoneId)
               (filter (fun r =>
                  negb (PyDict.mem (lower (name r) ++ "_" ++ content r)
                                   desired)
                  && endswith (lower (name r)) (expected_ending cfg)
                  && isTailscaleIP E (content r))
                recs)).
Proof.
  assert (Hstale : forall cf_rec w,
            ~ In (lower (name cf_rec) ++ "_" ++ content cf_rec)
                 (PyDict.keys desired) ->
            endswith (lower (name cf_rec)) (expected_ending cfg) = true ->
            isTailscaleIP E (content cf_rec) = true ->
            cleanup_step E cfg cf_ZoneId desired cf_rec w
            = (fst (deleteDNSRecord E (delete_args cfg cf_ZoneId cf_rec) w),
               snd (deleteDNSRecord E (delete_args cfg cf_ZoneId cf_rec) w),
               [Report DELETING_STALE (lower (name cf_rec)) (content cf_rec);
                CallDelete (delete_args cfg cf_ZoneId cf_rec)])).
  { intros r w Hnot Hs Hi.
    assert (Hm : PyDict.mem (lower (name r) ++ "_" ++ content r) desired
                 = false).
    { destruct (PyDict.mem _ desired) eqn:Hm; [|reflexivity].
      apply mem_keys in Hm. contradiction. }
    destruct (cleanup_step_cases E cfg cf_ZoneId desired r w)
      as [[Hm' _]|[(_ & Hs' & _)|[(_ & _ & Hi' & _)|(_ & _ & _ & Hr)]]];
      first [congruence | exact Hr]. }
  split; [|split; [exact Hstale|split; [|split; [|split]]]].
  - intros r w Hin. apply mem_keys in Hin.
    destruct (cleanup_step_cases E cfg cf_ZoneId desired r w)
      as [[_ Hrun]|[(Hm & _)|[(Hm & _)|(Hm & _)]]];
      [exact Hrun | congruence..].
  - intros r d Hf Hne Hk. rewrite Hf in Hk.
    apply sapp_inv_head in Hk. injection Hk as Hk. contradiction.
  - intros r ts_records -> Hc1 Hc2 Hno Hin.
    apply in_map_iff in Hin as ([k d] & Hk & Hin). cbn [fst] in Hk. subst k.
    apply build_from_items in Hin as [[]|(dev & Hdev & Hkey & _)].
    unfold key_of in Hkey.
    apply key_injective in Hkey as [Hf Ha];
      [|exact Hc1 | now apply Hc2].
    apply (Hno dev Hdev); congruence.
  - intros pre r post w Hdel Hnot Hs Hi.
    pose proof (cleanup_loop_total E cfg cf_ZoneId desired pre w Hdel) as Hpre.
    destruct (for_each_app_run (cleanup_step E cfg cf_ZoneId desired)
                pre (r :: post) w Hpre) as (_ & _ & He).
    unfold cleanup_phase. rewrite He, deletes_app. apply in_or_app. right.
    cbn [for_each]. rewrite events_bind, (Hstale r _ Hnot Hs Hi).
    cbn [outcome events fst snd].
    destruct (fst (deleteDNSRecord E _ _)) as [[]|];
      [rewrite deletes_app; apply in_or_app; left|]; cbn; now left.
  - intros recs w Hdel run. subst run.
    pose proof (cleanup_loop_total E cfg cf_ZoneId desired recs w Hdel) as Ho.
    split; [exact Ho|].
    apply (cleanup_loop_complete E cfg cf_ZoneId desired recs w Ho).
Qed.

(** The desired address is written "fd7a:115c:a1e0::1"; the zone holds a
  stale record and then the same address written in full.  Both get
  their delete call. *)
Lemma cleanup_currency_is_key_lookup_witness :
  In (mkDelete "token" "example.com" "r6" "zone-1")
     (deletes (events
        (cleanup_phase Sample.env_ula (Sample.config "headscale" None)
           "zone-1"
           [("gw.example.com_fd7a:115c:a1e0::1",
             mkDesired "gw.example.com" "fd7a:115c:a1e0::1" "gw")]
           [mkZoneRecord "r0" "old.example.com" "fd7a:115c:a1e0::9" "AAAA";
            mkZoneRecord "r6" "gw.example.com" "fd7a:115c:a1e0:0:0:0:0:1"
              "AAAA"]
           (Sample.world [] [])))).
Proof.
  pose proof (cleanup_currency_is_key_lookup Sample.env_ula
                (Sample.config "headscale" None) "zone-1"
                [("gw.example.com_fd7a:115c:a1e0::1",
                  mkDesired "gw.example.com" "fd7a:115c:a1e0::1" "gw")])
    as (_ & _ & _ & _ & Hreach & _).
  refine (Hreach
            [mkZoneRecord "r0" "old.example.com" "fd7a:115c:a1e0::9" "AAAA"]
            (mkZoneRecord "r6" "gw.example.com" "fd7a:115c:a1e0:0:0:0:0:1"
               "AAAA")
            [] (Sample.world [] []) _ _ _ _).
  - intros s w' _. reflexivity.
  - simpl. intros [H|[]]. discriminate.
  - vm_compute. reflexivity.
  - vm_compute. reflexivity.
Defined.

(** The delete call for the stale record "r0" raises: the loop ends
  there, and the record "r6", whose content is the desired address in
  another writing, whose name is under the suffix and whose content is a
  mesh address, gets no delete call. *)
Lemma cleanup_delete_missed_after_failure :
  let cfg := Sample.config "headscale" None in
  let E := Sample.env_failing Sample.mesh_ula "r0" in
  let desired := [("gw.example.com_fd7a:115c:a1e0::1",
                   mkDesired "gw.example.com" "fd7a:115c:a1e0::1" "gw")] in
  let r0 := mkZoneRecord "r0" "old.example.com" "fd7a:115c:a1e0::9" "AAAA" in
  let r6 := mkZoneRecord "r6" "gw.example.com" "fd7a:115c:a1e0:0:0:0:0:1"
              "AAAA" in
  PyDict.mem (lower (name r6) ++ "_" ++ content r6) desired = false
  /\ endswith (lower (name r6)) (expected_ending cfg) = true
  /\ isTailscaleIP E (content r6) = true
  /\ cleanup_phase E cfg "zone-1" desired [r0; r6] (Sample.world [r0; r6] [])
     = (Exn, Sample.world [r0; r6] [],
        [Report DELETING_STALE "old.example.com" "fd7a:115c:a1e0::9";
         CallDelete (mkDelete "token" "example.com" "r0" "zone-1")]).
Proof. vm_compute. repeat split. Qed.
